(** * Late-sheet notifier: a shallow embedding of [late-sheet-apps-script.js]

    The script scans the sheet of the current year, selects the rows whose
    "Email sent" cell is blank, validates the name of each against the data
    validation rule of the name column, and either marks the row
    "invalid name" or mails the member and stamps the row.

    The embedding follows the source function by function.  The hosted
    services (the spreadsheet, Drive, the mail transport, the clock) are an
    explicit state plus an environment of oracles that say what each call
    returns and whether it raises.  A call that raises has no effect: a mail
    that was refused is not sent, a write that was refused leaves the cell.
    The calls made outside every [try] block ([openByUrl], [getSheetByName],
    [getDataRange], [getValues]) come before any effect and are taken to
    return.  [Logger.log] calls are not modelled as text; the per-row log of
    [processSheet] is kept as a list of outcomes. *)

From Stdlib Require Import List String Ascii ZArith Lia Bool Arith DecimalString Sorted.
Import ListNotations.
Open Scope string_scope.
Open Scope list_scope.

(** ** JavaScript values held by cells *)

Module Js.

(** What [Range.getValues] hands out: strings (the empty string for an empty
    cell), numbers, booleans and dates.  [VUndefined] is what indexing an array
    out of range gives.  Numbers are the integer-valued ones and dates are the
    valid ones, as milliseconds since the epoch. *)
Inductive Value :=
| VUndefined
| VStr (s : string)
| VNum (n : Z)
| VBool (b : bool)
| VDate (ms : Z).

(** A call into a hosted service either returns or raises. *)
Inductive Completion (A : Type) :=
| Returns (a : A)
| Throws.
Arguments Returns {A} a.
Arguments Throws {A}.

(** ToBoolean *)
Definition truthy (v : Value) : bool :=
  match v with
  | VUndefined => false
  | VStr s => negb (s =? "")
  | VNum n => negb (n =? 0)%Z
  | VBool b => b
  | VDate _ => true
  end.

(** [Number.prototype.toString] on an integer *)
Definition Number_toString (n : Z) : string :=
  NilZero.string_of_int (Z.to_int n).

(** White space and line terminators among the code units below 256. *)
Definition is_white (c : ascii) : bool :=
  let n := nat_of_ascii c in
  ((9 <=? n)%nat && (n <=? 13)%nat) || (n =? 32)%nat || (n =? 160)%nat.

Fixpoint trimStart (s : string) : string :=
  match s with
  | EmptyString => EmptyString
  | String c s' => if is_white c then trimStart s' else s
  end.

Fixpoint trimEnd (s : string) : string :=
  match s with
  | EmptyString => EmptyString
  | String c s' =>
      match trimEnd s' with
      | EmptyString => if is_white c then EmptyString else String c EmptyString
      | t => String c t
      end
  end.

(** [String.prototype.trim] *)
Definition trim (s : string) : string := trimEnd (trimStart s).

(** The parts of the JavaScript runtime the script relies on and that depend
    on the host's locale and time zone. *)
Class Runtime := {
  (** [Date.prototype.toString] *)
  Date_toString : Z -> string;
  (** [toLocaleDateString('en-US', { month: 'long', day: 'numeric' })] *)
  Date_toLocaleDateString : Z -> string;
  (** [new Date(s)] for a string [s]; [None] is the invalid date *)
  Date_parse : string -> option Z;
  (** [Date.prototype.getFullYear] *)
  Date_getFullYear : Z -> Z;
  (** a date never prints as white space *)
  Date_toString_shows : forall ms, trim (Date_toString ms) <> "";
}.

(** [v.toString()], and the conversion of a template literal [`${v}`].  The
    script calls the method on a possibly undefined receiver only inside the
    [some] callbacks of [isValidName], where the raise is modelled. *)
Definition toString `{Runtime} (v : Value) : string :=
  match v with
  | VUndefined => "undefined"
  | VStr s => s
  | VNum n => Number_toString n
  | VBool true => "true"
  | VBool false => "false"
  | VDate ms => Date_toString ms
  end.

(** The test [!v || v.toString().trim() === ''] the script applies to the
    "Email sent" cell and to the name. *)
Definition isBlank `{Runtime} (v : Value) : bool :=
  negb (truthy v) || (trim (toString v) =? "").

Definition nl : string := String (ascii_of_nat 10) EmptyString.

(** [Array.prototype.join] *)
Fixpoint join (sep : string) (l : list string) : string :=
  match l with
  | [] => ""
  | [x] => x
  | x :: t => (x ++ sep ++ join sep t)%string
  end.

End Js.
Import Js.

(** ** A runtime in UTC

    The runtime of a script whose time zone is UTC: the proleptic Gregorian
    calendar by the days-to-civil computation, dates printed as V8 prints
    them.  Strings are not parsed as dates. *)

Module Utc.

Definition msPerDay : Z := 86400000.

(** Year, month (1-12) and day of the month of a day number since the epoch. *)
Definition civil (days : Z) : Z * Z * Z :=
  let z := (days + 719468)%Z in
  let era := (z / 146097)%Z in
  let doe := (z - era * 146097)%Z in
  let yoe := ((doe - doe / 1460 + doe / 36524 - doe / 146096) / 365)%Z in
  let doy := (doe - (365 * yoe + yoe / 4 - yoe / 100))%Z in
  let mp := ((5 * doy + 2) / 153)%Z in
  let d := (doy - (153 * mp + 2) / 5 + 1)%Z in
  let m := (if (mp <? 10)%Z then mp + 3 else mp - 9)%Z in
  let y := (yoe + era * 400 + (if (m <=? 2)%Z then 1 else 0))%Z in
  (y, m, d).

Definition getFullYear (ms : Z) : Z := fst (fst (civil (ms / msPerDay))).
Definition getMonth (ms : Z) : Z := snd (fst (civil (ms / msPerDay))).
Definition getDate (ms : Z) : Z := snd (civil (ms / msPerDay)).

Definition dayNames : list string := ["Sun"; "Mon"; "Tue"; "Wed"; "Thu"; "Fri"; "Sat"].

Definition monthNames : list string :=
  ["January"; "February"; "March"; "April"; "May"; "June"; "July"; "August";
   "September"; "October"; "November"; "December"].

Definition dayName (ms : Z) : string :=
  nth (Z.to_nat ((ms / msPerDay + 4) mod 7)) dayNames "Sat".

Definition monthName (ms : Z) : string :=
  nth (Z.to_nat (getMonth ms - 1)) monthNames "December".

Definition pad2 (n : Z) : string :=
  ((if (n <? 10)%Z then "0" else "") ++ Number_toString n)%string.

Definition toTimeString (ms : Z) : string :=
  let t := (ms mod msPerDay)%Z in
  (pad2 (t / 3600000) ++ ":" ++ pad2 (t / 60000 mod 60) ++ ":" ++ pad2 (t / 1000 mod 60)
   ++ " GMT+0000 (Coordinated Universal Time)")%string.

Definition toString (ms : Z) : string :=
  (dayName ms ++ " " ++ substring 0 3 (monthName ms) ++ " " ++ pad2 (getDate ms) ++ " "
   ++ Number_toString (getFullYear ms) ++ " " ++ toTimeString ms)%string.

Definition toLocaleDateString (ms : Z) : string :=
  (monthName ms ++ " " ++ Number_toString (getDate ms))%string.

#[export] Instance runtime : Runtime.
Proof.
  refine {| Date_toString := toString;
            Date_toLocaleDateString := toLocaleDateString;
            Date_parse := fun _ => None;
            Date_getFullYear := getFullYear |}.
  assert (shows : forall c s, is_white c = false -> trim (String c s) <> "").
  { intros c s Hc. unfold trim. simpl. rewrite Hc. simpl.
    destruct (trimEnd s); [rewrite Hc|]; discriminate. }
  intros ms. unfold toString, dayName, dayNames.
  destruct (Z.to_nat ((ms / msPerDay + 4) mod 7)) as [|[|[|[|[|[|[|[|n]]]]]]]];
    simpl; apply shows; reflexivity.
Defined.

End Utc.

(** ** Configuration *)

(** The keys of the [columns] object. *)
Inductive Key := name | date | violation | howLate | notes | emailSent | coachNotified.

Definition Key_eqb (a b : Key) : bool :=
  match a, b with
  | name, name | date, date | violation, violation | howLate, howLate
  | notes, notes | emailSent, emailSent | coachNotified, coachNotified => true
  | _, _ => false
  end.

Definition columns (k : Key) : string :=
  match k with
  | name => "Name"
  | date => "Date"
  | violation => "Violation"
  | howLate => "How Late?"
  | notes => "Notes"
  | emailSent => "Email sent"
  | coachNotified => "Coach notified"
  end.

(** [Object.keys(columns)], in insertion order. *)
Definition keys : list Key :=
  [name; date; violation; howLate; notes; emailSent; coachNotified].

(** ** The hosted services *)

Definition Row := list Value.
Definition Grid := list Row.

Record Mail := { to : string; subject : string; body : string }.

(** What [processSheet] reads and changes: the values of the sheet (row 0 is
    the header row, sheet row [r] is [values] row [r - 1]) and the mails handed
    to the transport so far. *)
Record State := { grid : Grid; outbox : list Mail }.

Inductive CriteriaType := VALUE_IN_LIST | VALUE_IN_RANGE | OTHER_CRITERIA.

(** An element of the array [getCriteriaValues] returns. *)
Inductive Criterion :=
| CrNull
| CrBool (b : bool)
| CrText (s : string)
| CrValues (l : list Value)
| CrObject (repr : string).

(** A [DataValidation]: what its two getters return. *)
Record DataValidation := {
  getCriteriaType : Completion CriteriaType;
  getCriteriaValues : Completion (option (list Criterion));
}.

(** What the services answer during one run of [processSheet]. *)
Record Env := {
  (** [new Date()] *)
  now : State -> Z;
  (** [MailApp.sendEmail] raises (bad address, quota) *)
  sendEmail_raises : State -> Mail -> bool;
  (** [sheet.getRange(r, c).setValue(v)] raises *)
  setValue_raises : State -> nat -> nat -> Value -> bool;
  (** [sheet.getRange(r, c).getDataValidation()] *)
  getDataValidation : nat -> nat -> Completion (option DataValidation);
  (** [spreadsheet.getRange(a1).getValues()] *)
  getRange_getValues : State -> string -> Completion Grid;
}.

(** ** Column headers *)

(** [columnIndices]: an object from keys to indices, [None] for an absent
    property. *)
Definition ColumnIndices := Key -> option nat.

Definition noIndices : ColumnIndices := fun _ => None.

Definition setIndex (ci : ColumnIndices) (k : Key) (i : nat) : ColumnIndices :=
  fun k' => if Key_eqb k' k then Some i else ci k'.

(** [columns[key] === header] *)
Definition labelIs (k : Key) (header : Value) : bool :=
  match header with
  | VStr s => columns k =? s
  | _ => false
  end.

(** The inner [forEach] over the keys, for one header cell. *)
Definition mapHeader (header : Value) (index : nat) (ci : ColumnIndices) : ColumnIndices :=
  fold_left (fun ci key => if labelIs key header then setIndex ci key index else ci) keys ci.

(** The outer [forEach] over the header row. *)
Fixpoint mapHeaders (headerRow : Row) (index : nat) (ci : ColumnIndices) : ColumnIndices :=
  match headerRow with
  | [] => ci
  | header :: rest => mapHeaders rest (S index) (mapHeader header index ci)
  end.

Definition missingColumns (ci : ColumnIndices) : list string :=
  fold_left (fun missing key =>
               match ci key with
               | None => missing ++ [columns key]
               | Some _ => missing
               end) keys [].

(** Lines 102-126 of [readColumnData]: the indices of all declared columns,
    or [None] when one is missing. *)
Definition resolveColumns (headerRow : Row) : option ColumnIndices :=
  let columnIndices := mapHeaders headerRow 0 noIndices in
  match missingColumns columnIndices with
  | [] => Some columnIndices
  | _ :: _ => None
  end.

Record ColumnData := {
  columnIndices : ColumnIndices;
  values : Grid;
  nameValidation : option DataValidation;
}.

Definition readColumnData (env : Env) (vals : Grid) : option ColumnData :=
  if (List.length vals <? 2)%nat then None
  else
    match resolveColumns (nth 0 vals []) with
    | None => None
    | Some ci =>
        let nameValidation :=
          match ci name with
          | Some nameColumnIndex =>
              match getDataValidation env 2 (nameColumnIndex + 1) with
              | Returns v => v
              | Throws => None
              end
          | None => None
          end in
        Some {| columnIndices := ci; values := vals; nameValidation := nameValidation |}
    end.

(** ** The identity validator *)

Definition criterion_truthy (c : Criterion) : bool :=
  match c with
  | CrNull => false
  | CrBool b => b
  | CrText s => negb (s =? "")
  | CrValues _ => true
  | CrObject _ => true
  end.

(** [c.toString()]; an array joins its elements with commas, [undefined]
    elements as empty strings. *)
Definition criterion_toString `{Runtime} (c : Criterion) : string :=
  match c with
  | CrNull => "null"
  | CrBool true => "true"
  | CrBool false => "false"
  | CrText s => s
  | CrValues l =>
      join "," (map (fun v => match v with VUndefined => "" | _ => toString v end) l)
  | CrObject repr => repr
  end.

(** [criteriaValues && criteriaValues.length > 0 && criteriaValues[0]]: the
    first criterion when the whole test is truthy. *)
Definition firstCriterion (criteriaValues : option (list Criterion)) : option Criterion :=
  match criteriaValues with
  | Some (c :: _) => if criterion_truthy c then Some c else None
  | _ => None
  end.

(** [vals.some(val => val.toString().trim() === nameStr)], left to right;
    [Throws] when the callback reaches an undefined element first. *)
Fixpoint someMatches `{Runtime} (vals : list Value) (nameStr : string) : Completion bool :=
  match vals with
  | [] => Returns false
  | VUndefined :: _ => Throws
  | val :: rest =>
      if trim (toString val) =? nameStr then Returns true else someMatches rest nameStr
  end.

(** [isValidName(validation, nameValue, spreadsheet)]; [getRange] stands for
    [a1 => spreadsheet.getRange(a1).getValues()].  Every raise inside the
    [try] blocks ends in [return true]. *)
Definition isValidName `{Runtime} (getRange : string -> Completion Grid)
    (validation : option DataValidation) (nameValue : Value) : bool :=
  if isBlank nameValue then false
  else
    match validation with
    | None => true
    | Some validation =>
        match getCriteriaType validation with
        | Throws => true
        | Returns criteriaType =>
            match getCriteriaValues validation with
            | Throws => true
            | Returns criteriaValues =>
                let nameStr := trim (toString nameValue) in
                match criteriaType with
                | VALUE_IN_LIST =>
                    match firstCriterion criteriaValues with
                    | Some (CrValues allowedValues) =>
                        match someMatches allowedValues nameStr with
                        | Returns isValid => isValid
                        | Throws => true
                        end
                    | Some _ => true   (* [allowedValues.some] is not a function *)
                    | None => true
                    end
                | VALUE_IN_RANGE =>
                    match firstCriterion criteriaValues with
                    | Some c =>
                        match getRange (criterion_toString c) with
                        | Returns rangeValues =>
                            match someMatches (List.concat rangeValues) nameStr with
                            | Returns isValid => isValid
                            | Throws => true
                            end
                        | Throws => true
                        end
                    | None => true
                    end
                | OTHER_CRITERIA => true
                end
            end
        end
    end.

(** ** The notification *)

(** [formatDate(dateValue)] *)
Definition formatDate `{Runtime} (dateValue : Value) : string :=
  if negb (truthy dateValue) then ""
  else
    let date :=
      match dateValue with
      | VDate ms => Some ms
      | VNum n => if (Z.abs n <=? 8640000000000000)%Z then Some n else None
      | VBool true => Some 1%Z
      | VStr s => Date_parse s
      | _ => None
      end in
    match date with
    | None => toString dateValue
    | Some ms => Date_toLocaleDateString ms
    end.

Definition RowData := Key -> Value.

Definition greeting (nameStr : string) : string :=
  ("Hello " ++ nameStr ++ "," ++ nl ++ nl)%string.

Definition intro : string :=
  ("You've been added to the late sheet with the following details:" ++ nl ++ nl)%string.

Definition closing : string :=
  (nl ++ "Best regards," ++ nl ++ "Late Sheet System")%string.

(** The label of a detail line. *)
Definition label (k : Key) : string :=
  match k with
  | date => "Date: "
  | violation => "Violation: "
  | howLate => "How Late: "
  | notes => "Notes: "
  | _ => ""
  end.

(** What is interpolated after the label: the formatted date, or the cell. *)
Definition detailText `{Runtime} (data : RowData) (k : Key) : string :=
  match k with
  | date => formatDate (data date)
  | _ => toString (data k)
  end.

(** The line of one detail, present when the [if] on the field is taken. *)
Definition detailLine `{Runtime} (data : RowData) (k : Key) : option string :=
  if truthy (data k) then Some (label k ++ detailText data k ++ nl)%string else None.

(** The fields with an [if] of their own, in the order of the source. *)
Definition details : list Key := [date; violation; howLate; notes].

(** The lines the four [if] statements append, in order. *)
Definition detailLines `{Runtime} (data : RowData) : list string :=
  flat_map (fun k => match detailLine data k with Some l => [l] | None => [] end) details.

(** [data.name || 'Member'], as interpolated *)
Definition memberName `{Runtime} (data : RowData) : string :=
  if truthy (data name) then toString (data name) else "Member".

(** The message [sendLateSheetEmail] hands to [MailApp.sendEmail]. *)
Definition lateSheetEmail `{Runtime} (data : RowData) : Mail :=
  {| to := (memberName data ++ "@directactioneverywhere.com")%string;
     subject := "You've been added to the late sheet.";
     body := (greeting (memberName data) ++ intro
              ++ String.concat "" (detailLines data) ++ closing)%string |}.

Definition sendLateSheetEmail `{Runtime} (env : Env) (st : State) (data : RowData)
  : Completion State :=
  let m := lateSheetEmail data in
  if sendEmail_raises env st m then Throws
  else Returns {| grid := grid st; outbox := outbox st ++ [m] |}.

(** ** Reading and writing cells *)

(** [row[i]], where [i] may be an absent index *)
Definition cellAt (row : Row) (i : option nat) : Value :=
  match i with
  | Some i => nth i row VUndefined
  | None => VUndefined
  end.

(** Assignment at an index; past the end the list grows, padded with [d]. *)
Fixpoint setNth {A : Type} (d : A) (l : list A) (i : nat) (v : A) : list A :=
  match i, l with
  | O, [] => [v]
  | O, _ :: t => v :: t
  | S i, [] => d :: setNth d [] i v
  | S i, x :: t => x :: setNth d t i v
  end.

(** The values of the sheet once the cell at row [r], column [c] (both from
    1) holds [v].  The data range grows to cover a cell outside of it. *)
Definition writeCell (g : Grid) (r c : nat) (v : Value) : Grid :=
  setNth [] g (r - 1) (setNth (VStr "") (nth (r - 1) g []) (c - 1) v).

(** [sheet.getRange(r, c).setValue(v)].  An absent column index makes the
    column [NaN], which [getRange] refuses, as it refuses row or column 0. *)
Definition setValue (env : Env) (st : State) (r : nat) (c : option nat) (v : Value)
  : Completion State :=
  match c with
  | None => Throws
  | Some c =>
      if (r =? 0)%nat || (c =? 0)%nat || setValue_raises env st r c v then Throws
      else Returns {| grid := writeCell (grid st) r c v; outbox := outbox st |}
  end.

(** ** Selecting and processing rows *)

Record RowInfo := { rowNumber : nat; data : RowData }.

(** The body of the selection loop, from [values[i]] on; [rows] is
    [values.slice(i)]. *)
Fixpoint unprocessedFrom `{Runtime} (ci : ColumnIndices) (rows : list Row) (i : nat)
  : list RowInfo :=
  match rows with
  | [] => []
  | row :: rest =>
      if isBlank (cellAt row (ci emailSent)) then
        {| rowNumber := i + 1; data := fun key => cellAt row (ci key) |}
          :: unprocessedFrom ci rest (S i)
      else unprocessedFrom ci rest (S i)
  end.

(** [unprocessedRows] after the loop [for (let i = 1; i < values.length; i++)] *)
Definition unprocessedRows `{Runtime} (ci : ColumnIndices) (vals : Grid) : list RowInfo :=
  unprocessedFrom ci (skipn 1 vals) 1.

(** How the callback of [unprocessedRows.forEach] ends for a row, that is,
    which of its log lines it writes: "marked as invalid name", "Email sent
    and timestamp recorded", or "Error processing row" with the call that
    raised. *)
Inductive Outcome :=
| MarkedInvalid
| Notified (m : Mail) (timestamp : Z)
| MarkFailed
| SendFailed (m : Mail)
| StampFailed (m : Mail).

Definition invalidName : Value := VStr "invalid name".

Definition processRow `{Runtime} (env : Env) (cd : ColumnData) (st : State)
    (rowInfo : RowInfo) : State * Outcome :=
  let nameValue := data rowInfo name in
  let column := option_map S (columnIndices cd emailSent) in
  if negb (isValidName (getRange_getValues env st) (nameValidation cd) nameValue) then
    match setValue env st (rowNumber rowInfo) column invalidName with
    | Returns st' => (st', MarkedInvalid)
    | Throws => (st, MarkFailed)
    end
  else
    match sendLateSheetEmail env st (data rowInfo) with
    | Throws => (st, SendFailed (lateSheetEmail (data rowInfo)))
    | Returns st1 =>
        let timestamp := now env st1 in
        match setValue env st1 (rowNumber rowInfo) column (VDate timestamp) with
        | Returns st2 => (st2, Notified (lateSheetEmail (data rowInfo)) timestamp)
        | Throws => (st1, StampFailed (lateSheetEmail (data rowInfo)))
        end
    end.

(** The log of a run: the rows processed, in order, each with its outcome. *)
Definition Log := list (nat * Outcome).

(** [unprocessedRows.forEach(rowInfo => { try { ... } catch (error) { ... } })] *)
Fixpoint processRows `{Runtime} (env : Env) (cd : ColumnData) (rows : list RowInfo)
    (st : State) : State * Log :=
  match rows with
  | [] => (st, [])
  | rowInfo :: rest =>
      let (st1, o) := processRow env cd st rowInfo in
      let (st2, log) := processRows env cd rest st1 in
      (st2, (rowNumber rowInfo, o) :: log)
  end.

(** [processSheet(spreadsheet, sheet)] for a sheet that exists. *)
Definition processSheet `{Runtime} (env : Env) (st : State) : State * Log :=
  match readColumnData env (grid st) with
  | None => (st, [])
  | Some columnData =>
      processRows env columnData
        (unprocessedRows (columnIndices columnData) (values columnData)) st
  end.

(** ** Entry points *)

(** The spreadsheet (its sheets by name) and the mail transport. *)
Record World := { sheets : string -> option Grid; mailbox : list Mail }.

(** What the services answer to an entry point. *)
Record Host := {
  (** [SpreadsheetApp.openByUrl] gives a spreadsheet *)
  spreadsheetFound : bool;
  (** [DriveApp.getFileById(...).getLastUpdated()], in milliseconds *)
  getLastUpdated : Completion Z;
  (** [new Date()] in [wasSheetModifiedRecently] *)
  guardClock : Z;
  (** [new Date()] in [processLateSheet] *)
  yearClock : Z;
  sheetEnv : Env;
}.

Definition tenMinutes : Z := 10 * 60 * 1000.

Definition wasSheetModifiedRecently (host : Host) : bool :=
  match getLastUpdated host with
  | Returns lastModified =>
      let tenMinutesAgo := (guardClock host - tenMinutes)%Z in
      if (tenMinutesAgo <? lastModified)%Z then true else false
  | Throws => false
  end.

Definition setSheet (w : World) (sheetName : string) (st : State) : World :=
  {| sheets := fun n => if n =? sheetName then Some (grid st) else sheets w n;
     mailbox := outbox st |}.

Definition processLateSheet `{Runtime} (host : Host) (w : World) : World * Log :=
  let currentYear := Number_toString (Date_getFullYear (yearClock host)) in
  if currentYear =? "2025" then (w, [])
  else
    match sheets w currentYear with
    | None => (w, [])
    | Some g =>
        let (st, log) := processSheet (sheetEnv host) {| grid := g; outbox := mailbox w |} in
        (setSheet w currentYear st, log)
    end.

Definition processLateSheetIfNotModifiedRecently `{Runtime} (host : Host) (w : World)
  : World * Log :=
  if negb (spreadsheetFound host) then (w, [])
  else if wasSheetModifiedRecently host then (w, [])
  else processLateSheet host w.

Definition processLateSheetNow `{Runtime} (host : Host) (w : World) : World * Log :=
  if negb (spreadsheetFound host) then (w, [])
  else processLateSheet host w.

(** ** Counting effects *)

(** The mail the transport accepted while the row was processed. *)
Definition dispatched (o : Outcome) : option Mail :=
  match o with
  | Notified m _ | StampFailed m => Some m
  | _ => None
  end.

(** The mail the callback handed to [MailApp.sendEmail], accepted or not. *)
Definition handedOver (o : Outcome) : option Mail :=
  match o with
  | Notified m _ | SendFailed m | StampFailed m => Some m
  | _ => None
  end.

(** The value written into the row's "Email sent" cell. *)
Definition written (o : Outcome) : option Value :=
  match o with
  | MarkedInvalid => Some invalidName
  | Notified _ timestamp => Some (VDate timestamp)
  | _ => None
  end.

(** The callback ended in its [catch]. *)
Definition failed (o : Outcome) : bool :=
  match o with
  | MarkFailed | SendFailed _ | StampFailed _ => true
  | _ => false
  end.

Definition isSome {A : Type} (o : option A) : bool :=
  match o with Some _ => true | None => false end.

(** Log entries of sheet row [r] that satisfy [p]. *)
Definition countRow (p : Outcome -> bool) (r : nat) (log : Log) : nat :=
  List.length (filter (fun e => (fst e =? r)%nat && p (snd e)) log).

Definition dispatches (r : nat) (log : Log) : nat :=
  countRow (fun o => isSome (dispatched o)) r log.

Definition cellWrites (r : nat) (log : Log) : nat :=
  countRow (fun o => isSome (written o)) r log.

(** Runs in which the mail for row [r] went out and the stamp then failed. *)
Definition stampFailures (r : nat) (log : Log) : nat :=
  countRow (fun o => match o with StampFailed _ => true | _ => false end) r log.

Definition allMails (log : Log) : list Mail :=
  flat_map (fun e => match dispatched (snd e) with Some m => [m] | None => [] end) log.

(** Successive runs of [processSheet], each with its own environment and
    nothing else touching the sheet in between; the logs are appended. *)
Fixpoint runs `{Runtime} (envs : list Env) (st : State) : State * Log :=
  match envs with
  | [] => (st, [])
  | env :: rest =>
      let (st1, log1) := processSheet env st in
      let (st2, log2) := runs rest st1 in
      (st2, log1 ++ log2)
  end.

(** The "Email sent" cell of sheet row [r], by the header row of [g]. *)
Definition emailSentCell (g : Grid) (r : nat) : Value :=
  match resolveColumns (nth 0 g []) with
  | Some ci => cellAt (nth (r - 1) g []) (ci emailSent)
  | None => VUndefined
  end.

(** ** Blank cells, in the words of the specification *)

(** A string that is empty or holds white space only. *)
Fixpoint whitespaceOnly (s : string) : bool :=
  match s with
  | EmptyString => true
  | String c s' => is_white c && whitespaceOnly s'
  end.

(** A cell that is empty or white space only: a text cell with such a text. *)
Definition emptyOrWhitespace (v : Value) : bool :=
  match v with
  | VStr s => whitespaceOnly s
  | _ => false
  end.

(** A value that is falsy or a white-space-only string. *)
Definition falsyOrWhitespace (v : Value) : bool :=
  match v with
  | VUndefined => true
  | VStr s => whitespaceOnly s
  | VNum n => (n =? 0)%Z
  | VBool b => negb b
  | VDate _ => false
  end.

(** The sheet rows below the header, top to bottom: 2, 3, ... *)
Definition dataRows (vals : Grid) : list nat := seq 2 (List.length vals - 1).

(** The cell of column [k] in sheet row [r]. *)
Definition cellOf (ci : ColumnIndices) (vals : Grid) (r : nat) (k : Key) : Value :=
  cellAt (nth (r - 1) vals []) (ci k).

(** A run of [processSheet] on [g] selects sheet row [r]. *)
Definition unprocessed `{Runtime} (g : Grid) (r : nat) : bool :=
  (2 <=? r)%nat && (r <=? List.length g)%nat
  && match resolveColumns (nth 0 g []) with
     | Some ci => isBlank (cellOf ci g r emailSent)
     | None => false
     end.

(** No cell of any sheet was written and no mail was sent between [w] and
    [w']. *)
Definition untouched (w w' : World) : Prop :=
  (forall sheetName, sheets w' sheetName = sheets w sheetName)
  /\ mailbox w' = mailbox w.

(** ** Shapes and variations *)

(** Every row is as long as the header row, as in what [getValues] returns
    for a data range. *)
Definition rectangular (g : Grid) : bool :=
  forallb (fun row => (List.length row =? List.length (nth 0 g []))%nat) g.

(** The services of [env], but for the data validation of the cells. *)
Definition withValidation (env : Env)
    (rules : nat -> nat -> Completion (option DataValidation)) : Env :=
  {| now := now env;
     sendEmail_raises := sendEmail_raises env;
     setValue_raises := setValue_raises env;
     getDataValidation := rules;
     getRange_getValues := getRange_getValues env |}.

(** The rule [readColumnData] settles on for a name column at index [i]. *)
Definition ruleRead (rules : nat -> nat -> Completion (option DataValidation)) (i : nat)
  : option DataValidation :=
  match rules 2 (i + 1) with
  | Returns v => v
  | Throws => None
  end.

(** The name of the sheet [processLateSheet] looks up. *)
Definition currentYear `{Runtime} (host : Host) : string :=
  Number_toString (Date_getFullYear (yearClock host)).

(** ** Sample data *)

Module Sample.

Definition header : Row := map (fun k => VStr (columns k)) keys.

(** A row of the late sheet with the given name and "Email sent" cell. *)
Definition lateRow (who : string) (sent : Value) : Row :=
  [VStr who; VDate 1793577600000; VStr "Late to meeting"; VNum 10; VStr ""; sent; VStr ""].

Definition sheet : Grid :=
  [header;
   lateRow "alice" (VStr "");
   lateRow "bob" (VDate 1793500000000);
   lateRow "carol" (VStr "  ")].

Definition start : State := {| grid := sheet; outbox := [] |}.

(** Services that answer and never raise; the name column has no rule. *)
Definition calm : Env :=
  {| now := fun _ => 1793629080000%Z;
     sendEmail_raises := fun _ _ => false;
     setValue_raises := fun _ _ _ _ => false;
     getDataValidation := fun _ _ => Returns None;
     getRange_getValues := fun _ _ => Throws |}.

(** The mail transport is down. *)
Definition mailDown : Env :=
  {| now := now calm;
     sendEmail_raises := fun _ _ => true;
     setValue_raises := setValue_raises calm;
     getDataValidation := getDataValidation calm;
     getRange_getValues := getRange_getValues calm |}.

(** The sheet refuses writes (a protected range, a service error). *)
Definition writesRefused : Env :=
  {| now := now calm;
     sendEmail_raises := sendEmail_raises calm;
     setValue_raises := fun _ _ _ _ => true;
     getDataValidation := getDataValidation calm;
     getRange_getValues := getRange_getValues calm |}.

(** A dropdown rule over a literal list. *)
Definition listRule (allowed : list string) : DataValidation :=
  {| getCriteriaType := Returns VALUE_IN_LIST;
     getCriteriaValues := Returns (Some [CrValues (map VStr allowed); CrBool true]) |}.

(** The name column accepts the names of [allowed] only. *)
Definition withRule (allowed : list string) : Env :=
  {| now := now calm;
     sendEmail_raises := sendEmail_raises calm;
     setValue_raises := setValue_raises calm;
     getDataValidation := fun _ _ => Returns (Some (listRule allowed));
     getRange_getValues := getRange_getValues calm |}.

(** The name column accepts "Alice" and "Bob" only, and the sheet refuses
    writes. *)
Definition ruleAndWritesRefused : Env :=
  {| now := now calm;
     sendEmail_raises := sendEmail_raises calm;
     setValue_raises := fun _ _ _ _ => true;
     getDataValidation := fun _ _ => Returns (Some (listRule ["Alice"; "Bob"]));
     getRange_getValues := getRange_getValues calm |}.

(** What [readColumnData] gives on the sample sheet, and the first row a run
    selects there. *)
Definition columnData (env : Env) : ColumnData :=
  match readColumnData env sheet with
  | Some cd => cd
  | None => {| columnIndices := noIndices; values := []; nameValidation := None |}
  end.

Definition firstRow (env : Env) : RowInfo :=
  nth 0 (unprocessedRows (H := Utc.runtime) (columnIndices (columnData env)) sheet)
      {| rowNumber := 0; data := fun _ => VUndefined |}.

(** A row with a name only, but for white space under "Notes" and the
    number 0 under "How Late?". *)
Definition sparse : RowData :=
  fun k =>
    match k with
    | name => VStr "alice"
    | notes => VStr " "
    | howLate => VNum 0
    | _ => VStr ""
    end.

(** The column indices of the sample header. *)
Definition indices : ColumnIndices := columnIndices (columnData calm).

(** A sheet whose only data row has the number 0 under "Email sent". *)
Definition zeroSheet : Grid := [header; lateRow "dave" (VNum 0)].

(** A sheet whose header row lacks the "Notes" label. *)
Definition noNotes : Grid :=
  [[VStr "Name"; VStr "Date"; VStr "Violation"; VStr "How Late?"; VStr "notes";
    VStr "Email sent"; VStr "Coach notified"];
   lateRow "alice" (VStr "")].

(** The sample header with a second "Notes" column at the end. *)
Definition twoNotes : Row := header ++ [VStr "Notes"].

(** Rules that reject everybody on every cell, except that the lookup on the
    first data cell of the name column raises. *)
Definition rulesElsewhere (r c : nat) : Completion (option DataValidation) :=
  if (r =? 2)%nat && (c =? 1)%nat then Throws else Returns (Some (listRule [])).

(** A host for the entry points: the file was last touched [age] milliseconds
    before the guard looks at the clock, at [clock]. *)
Definition host (clock age : Z) : Host :=
  {| spreadsheetFound := true;
     getLastUpdated := Returns (clock - age)%Z;
     guardClock := clock;
     yearClock := clock;
     sheetEnv := calm |}.

(** A spreadsheet whose sheet "2026" is the sample sheet. *)
Definition world : World :=
  {| sheets := fun n => if n =? "2026" then Some sheet else None; mailbox := [] |}.

End Sample.

(* ================================================================== *)
(** * Properties *)

(** ** Strings and values *)

Example utc_epoch :
  Utc.toString 0 = "Thu Jan 01 1970 00:00:00 GMT+0000 (Coordinated Universal Time)".
Proof. reflexivity. Qed.

Example utc_2026 :
  Utc.toString 1793629080000
  = "Mon Nov 02 2026 14:18:00 GMT+0000 (Coordinated Universal Time)".
Proof. vm_compute. reflexivity. Qed.

Example utc_locale : Utc.toLocaleDateString 1793629080000 = "November 2".
Proof. vm_compute. reflexivity. Qed.

Lemma trimStart_empty (s : string) : trimStart s = "" <-> whitespaceOnly s = true.
Proof.
  induction s as [|c s IH]; simpl.
  - tauto.
  - destruct (is_white c); simpl.
    + exact IH.
    + split; discriminate.
Qed.

Lemma trimEnd_empty (s : string) : trimEnd s = "" <-> whitespaceOnly s = true.
Proof.
  induction s as [|c s IH]; simpl.
  - tauto.
  - destruct (trimEnd s) eqn:E.
    + destruct (is_white c); simpl.
      * tauto.
      * split; discriminate.
    + split; [discriminate|].
      intros H. apply andb_true_iff in H. destruct H as [_ H].
      apply IH in H. discriminate.
Qed.

Lemma whitespaceOnly_trimStart (s : string) :
  whitespaceOnly (trimStart s) = whitespaceOnly s.
Proof.
  induction s as [|c s IH]; simpl; auto.
  destruct (is_white c) eqn:E; simpl; auto. now rewrite E.
Qed.

Lemma trim_empty (s : string) : trim s = "" <-> whitespaceOnly s = true.
Proof.
  unfold trim. rewrite trimEnd_empty, whitespaceOnly_trimStart. tauto.
Qed.

Lemma trim_eqb_empty (s : string) : (trim s =? "") = whitespaceOnly s.
Proof.
  destruct (whitespaceOnly s) eqn:E.
  - apply String.eqb_eq, trim_empty, E.
  - apply String.eqb_neq. intros H. apply trim_empty in H. congruence.
Qed.

Lemma Number_toString_shows (n : Z) : whitespaceOnly (Number_toString n) = false.
Proof.
  unfold Number_toString.
  destruct (Z.to_int n) as [d|d]; [destruct d|]; reflexivity.
Qed.

Lemma Date_toString_visible `{Runtime} (ms : Z) : whitespaceOnly (Date_toString ms) = false.
Proof.
  destruct (whitespaceOnly (Date_toString ms)) eqn:E; auto.
  apply trim_empty in E. now apply Date_toString_shows in E.
Qed.

(** The test of the script is: falsy, or a string of white space. *)
Lemma isBlank_falsyOrWhitespace `{Runtime} (v : Value) : isBlank v = falsyOrWhitespace v.
Proof.
  unfold isBlank. rewrite trim_eqb_empty.
  destruct v as [|s|n|[]|ms]; simpl; auto.
  - destruct s; reflexivity.
  - rewrite Number_toString_shows. now destruct (n =? 0)%Z.
  - now rewrite Date_toString_visible.
Qed.

Lemma invalidName_not_blank `{Runtime} : isBlank invalidName = false.
Proof. reflexivity. Qed.

Lemma timestamp_not_blank `{Runtime} (ms : Z) : isBlank (VDate ms) = false.
Proof. now rewrite isBlank_falsyOrWhitespace. Qed.

(** ** Schema resolution *)

Lemma Key_eqb_refl (k : Key) : Key_eqb k k = true.
Proof. now destruct k. Qed.

Lemma Key_eqb_eq (a b : Key) : Key_eqb a b = true <-> a = b.
Proof. destruct a, b; simpl; split; congruence. Qed.

Lemma In_keys (k : Key) : In k keys.
Proof. destruct k; simpl; tauto. Qed.

Lemma labelIs_true (k : Key) (header : Value) :
  labelIs k header = true <-> header = VStr (columns k).
Proof.
  destruct header; simpl; try (split; congruence).
  rewrite String.eqb_eq. split; congruence.
Qed.

Lemma mapHeader_fold (header : Value) (index : nat) (l : list Key) (ci : ColumnIndices)
    (k : Key) :
  fold_left (fun ci key => if labelIs key header then setIndex ci key index else ci) l ci k
  = if existsb (Key_eqb k) l && labelIs k header then Some index else ci k.
Proof.
  revert ci. induction l as [|a l IH]; intros ci; simpl.
  - reflexivity.
  - rewrite IH. destruct (Key_eqb k a) eqn:E; simpl.
    + apply Key_eqb_eq in E. subst a.
      destruct (labelIs k header); simpl.
      * destruct (existsb (Key_eqb k) l); simpl; auto.
        unfold setIndex. now rewrite Key_eqb_refl.
      * now rewrite andb_false_r.
    + destruct (existsb (Key_eqb k) l && labelIs k header); auto.
      destruct (labelIs a header); auto.
      unfold setIndex. now rewrite E.
Qed.

Lemma mapHeader_at (header : Value) (index : nat) (ci : ColumnIndices) (k : Key) :
  mapHeader header index ci k = if labelIs k header then Some index else ci k.
Proof.
  unfold mapHeader. rewrite mapHeader_fold.
  replace (existsb (Key_eqb k) keys) with true; auto.
  symmetry. apply existsb_exists. exists k. split; [apply In_keys | apply Key_eqb_refl].
Qed.

(** A key has no index after the scan iff it had none before and no header
    cell is its label. *)
Lemma mapHeaders_None (headerRow : Row) (index : nat) (ci : ColumnIndices) (k : Key) :
  mapHeaders headerRow index ci k = None
  <-> ci k = None /\ ~ In (VStr (columns k)) headerRow.
Proof.
  revert index ci. induction headerRow as [|h t IH]; intros index ci; simpl.
  - tauto.
  - rewrite IH, mapHeader_at.
    destruct (labelIs k h) eqn:E.
    + apply labelIs_true in E. split; [intros [? _]; discriminate | tauto].
    + assert (h <> VStr (columns k)) by (intros ->; now rewrite (proj2 (labelIs_true k _)) in E).
      tauto.
Qed.

(** An index found by the scan points at a header cell with the label, at or
    after the start of the scan. *)
Lemma mapHeaders_Some (headerRow : Row) (index : nat) (ci : ColumnIndices) (k : Key) (i : nat) :
  mapHeaders headerRow index ci k = Some i ->
  ci k = Some i \/ (index <= i /\ nth_error headerRow (i - index) = Some (VStr (columns k))).
Proof.
  revert index ci. induction headerRow as [|h t IH]; intros index ci; simpl.
  - tauto.
  - intros H. apply IH in H. rewrite mapHeader_at in H.
    destruct H as [H|[Hle Hn]].
    + destruct (labelIs k h) eqn:E; auto.
      apply labelIs_true in E. injection H as <-. right.
      rewrite Nat.sub_diag. simpl. split; [lia | now subst].
    + right. split; [lia|].
      replace (i - index) with (S (i - S index)) by lia. exact Hn.
Qed.

Lemma missingColumns_fold (ci : ColumnIndices) (l : list Key) (init : list string) :
  fold_left (fun missing key =>
               match ci key with
               | None => missing ++ [columns key]
               | Some _ => missing
               end) l init
  = init ++ map columns (filter (fun k => negb (isSome (ci k))) l).
Proof.
  revert init. induction l as [|a l IH]; intros init; simpl.
  - now rewrite app_nil_r.
  - rewrite IH. destruct (ci a); simpl; auto. now rewrite <- app_assoc.
Qed.

Lemma missingColumns_nil (ci : ColumnIndices) :
  missingColumns ci = [] <-> forall k, ci k <> None.
Proof.
  unfold missingColumns. rewrite missingColumns_fold. cbn [app]. split.
  - intros H k Hk.
    assert (In (columns k) (map columns (filter (fun k => negb (isSome (ci k))) keys))).
    { apply in_map, filter_In. split; [apply In_keys | now rewrite Hk]. }
    rewrite H in H0. contradiction.
  - intros H.
    destruct (filter (fun k => negb (isSome (ci k))) keys) as [|a l] eqn:E; auto.
    assert (Ha : In a (filter (fun k => negb (isSome (ci k))) keys)) by (rewrite E; now left).
    apply filter_In in Ha. destruct Ha as [_ Ha]. specialize (H a).
    destruct (ci a); [discriminate | congruence].
Qed.

Lemma resolveColumns_Some (headerRow : Row) (ci : ColumnIndices) :
  resolveColumns headerRow = Some ci -> ci = mapHeaders headerRow 0 noIndices.
Proof.
  unfold resolveColumns. destruct (missingColumns _); congruence.
Qed.

Lemma resolveColumns_total (headerRow : Row) (ci : ColumnIndices) (k : Key) :
  resolveColumns headerRow = Some ci -> exists i, ci k = Some i.
Proof.
  unfold resolveColumns.
  destruct (missingColumns _) eqn:E; [|discriminate].
  intros [= <-]. pose proof (proj1 (missingColumns_nil _) E k) as Hk.
  destruct (mapHeaders headerRow 0 noIndices k) as [i|]; [now exists i | congruence].
Qed.

Lemma resolveColumns_iff (headerRow : Row) :
  (exists ci, resolveColumns headerRow = Some ci)
  <-> forall k, In (VStr (columns k)) headerRow.
Proof.
  unfold resolveColumns. split.
  - intros [ci H] k. destruct (missingColumns _) eqn:E; [|discriminate].
    pose proof (proj1 (missingColumns_nil _) E k) as Hk.
    destruct (in_dec (fun a b : Value => ltac:(decide equality; try apply Z.eq_dec;
                try apply string_dec; try apply bool_dec) : {a = b} + {a <> b})
                (VStr (columns k)) headerRow) as [Hin|Hin]; auto.
    exfalso. apply Hk. apply mapHeaders_None. split; [reflexivity | exact Hin].
  - intros Hall.
    assert (E : missingColumns (mapHeaders headerRow 0 noIndices) = []).
    { apply missingColumns_nil. intros k Hk. apply mapHeaders_None in Hk.
      destruct Hk as [_ Hk]. apply Hk, Hall. }
    rewrite E. eauto.
Qed.

Lemma readColumnData_None_abort `{Runtime} (env : Env) (st : State) :
  readColumnData env (grid st) = None -> processSheet env st = (st, []).
Proof. unfold processSheet. now intros ->. Qed.

Lemma resolveColumns_None_read (env : Env) (vals : Grid) :
  resolveColumns (nth 0 vals []) = None -> readColumnData env vals = None.
Proof.
  unfold readColumnData. intros ->. now destruct (List.length vals <? 2)%nat.
Qed.

Lemma untouched_refl (w : World) : untouched w w.
Proof. split; auto. Qed.

Lemma setSheet_same (w : World) (sheetName : string) (g : Grid) :
  sheets w sheetName = Some g ->
  untouched w (setSheet w sheetName {| grid := g; outbox := mailbox w |}).
Proof.
  intros Hg. split; simpl; auto.
  intros n. destruct (String.eqb_spec n sheetName); congruence.
Qed.

(** When [processSheet] gives up, so do the entry points. *)
Lemma processLateSheet_abort `{Runtime} (host : Host) (w : World) :
  (forall sheetName g, sheets w sheetName = Some g ->
     readColumnData (sheetEnv host) g = None) ->
  forall run, In run [processLateSheetIfNotModifiedRecently; processLateSheetNow] ->
    untouched w (fst (run host w)) /\ snd (run host w) = [].
Proof.
  intros Hw.
  assert (P : untouched w (fst (processLateSheet host w))
              /\ snd (processLateSheet host w) = []).
  { unfold processLateSheet.
    destruct (_ =? "2025"); [split; [apply untouched_refl | reflexivity]|].
    destruct (sheets w _) as [g|] eqn:Eg; [|split; [apply untouched_refl | reflexivity]].
    rewrite readColumnData_None_abort by (apply (Hw _ _ Eg)).
    split; [now apply setSheet_same | reflexivity]. }
  intros run [<-|[<-|[]]];
    unfold processLateSheetIfNotModifiedRecently, processLateSheetNow;
    destruct (spreadsheetFound host); simpl;
    try destruct (wasSheetModifiedRecently host);
    auto; split; try apply untouched_refl; reflexivity.
Qed.

(** C6. Schema resolution succeeds iff every declared key has a header cell
    that is exactly its label (a text cell equal to the label, no trimming);
    when it succeeds each index points at such a cell; when a label is missing,
    [processSheet] ends with the sheet and the mail transport as they were and
    no row processed, and so do both entry points. *)
Theorem schema_resolution `{Runtime} (headerRow : Row) :
  ((exists ci, resolveColumns headerRow = Some ci)
   <-> forall k, In (VStr (columns k)) headerRow)
  /\ (forall ci k i, resolveColumns headerRow = Some ci -> ci k = Some i ->
        nth_error headerRow i = Some (VStr (columns k)))
  /\ (forall env st, nth 0 (grid st) [] = headerRow ->
        resolveColumns headerRow = None -> processSheet env st = (st, []))
  /\ (forall host w run,
        (forall sheetName g, sheets w sheetName = Some g -> nth 0 g [] = headerRow) ->
        resolveColumns headerRow = None ->
        In run [processLateSheetIfNotModifiedRecently; processLateSheetNow] ->
        untouched w (fst (run host w)) /\ snd (run host w) = []).
Proof.
  split; [apply resolveColumns_iff|]. split; [|split].
  - intros ci k i Hr Hk. apply resolveColumns_Some in Hr. subst ci.
    apply mapHeaders_Some in Hk. destruct Hk as [Hk|[_ Hk]]; [discriminate|].
    now rewrite Nat.sub_0_r in Hk.
  - intros env st Hh Hr. apply readColumnData_None_abort, resolveColumns_None_read.
    now rewrite Hh.
  - intros host w run Hw Hr. apply processLateSheet_abort.
    intros n g Hg. apply resolveColumns_None_read. now rewrite (Hw _ _ Hg).
Qed.

Lemma schema_resolution_witness :
  resolveColumns (nth 0 Sample.noNotes []) = None
  /\ processSheet (H := Utc.runtime) Sample.mailDown
       {| grid := Sample.noNotes; outbox := [] |}
     = ({| grid := Sample.noNotes; outbox := [] |}, []).
Proof.
  split; [reflexivity|].
  apply (proj1 (proj2 (proj2 (schema_resolution (H := Utc.runtime)
                                (nth 0 Sample.noNotes []))))); reflexivity.
Defined.

Example schema_sample :
  map Sample.indices keys = map Some [0; 1; 2; 3; 4; 5; 6].
Proof. reflexivity. Qed.

(** ** Row selection *)

Lemma unprocessedFrom_rowNumbers `{Runtime} (ci : ColumnIndices) (rows : list Row) (i : nat) :
  map rowNumber (unprocessedFrom ci rows i)
  = filter (fun r => isBlank (cellAt (nth (r - 1 - i) rows []) (ci emailSent)))
           (seq (i + 1) (List.length rows)).
Proof.
  revert i. induction rows as [|row rest IH]; intros i; [reflexivity|].
  cbn [unprocessedFrom List.length seq filter].
  replace (i + 1 - 1 - i) with 0 by lia. change (nth 0 (row :: rest) []) with row.
  assert (E : filter (fun r => isBlank (cellAt (nth (r - 1 - i) (row :: rest) []) (ci emailSent)))
                (seq (S (i + 1)) (List.length rest))
              = filter (fun r => isBlank (cellAt (nth (r - 1 - S i) rest []) (ci emailSent)))
                  (seq (S i + 1) (List.length rest))).
  { replace (S i + 1) with (S (i + 1)) by lia.
    apply filter_ext_in. intros r Hr. apply in_seq in Hr.
    replace (r - 1 - i) with (S (r - 1 - S i)) by lia. reflexivity. }
  rewrite E, <- IH.
  destruct (isBlank (cellAt row (ci emailSent))); reflexivity.
Qed.

Lemma unprocessedFrom_data `{Runtime} (ci : ColumnIndices) (rows : list Row) (i : nat)
    (ri : RowInfo) :
  In ri (unprocessedFrom ci rows i) ->
  forall k, data ri k = cellAt (nth (rowNumber ri - 1 - i) rows []) (ci k).
Proof.
  revert i. induction rows as [|row rest IH]; intros i; [intros []|].
  cbn [unprocessedFrom].
  assert (T : In ri (unprocessedFrom ci rest (S i)) ->
              forall k, data ri k = cellAt (nth (rowNumber ri - 1 - i) (row :: rest) []) (ci k)).
  { intros Hin k. rewrite (IH _ Hin k).
    assert (Hr : In (rowNumber ri) (map rowNumber (unprocessedFrom ci rest (S i))))
      by now apply in_map.
    rewrite unprocessedFrom_rowNumbers in Hr. apply filter_In in Hr.
    destruct Hr as [Hr _]. apply in_seq in Hr.
    replace (rowNumber ri - 1 - i) with (S (rowNumber ri - 1 - S i)) by lia. reflexivity. }
  destruct (isBlank (cellAt row (ci emailSent))); auto.
  intros [<-|Hin]; auto. intros k. cbn [rowNumber data].
  replace (i + 1 - 1 - i) with 0 by lia. reflexivity.
Qed.

Lemma nth_skipn_1 {A : Type} (l : list A) (j : nat) (d : A) :
  nth j (skipn 1 l) d = nth (S j) l d.
Proof. destruct l; simpl; auto. now destruct j. Qed.

Lemma length_skipn_1 {A : Type} (l : list A) : List.length (skipn 1 l) = List.length l - 1.
Proof. destruct l; simpl; lia. Qed.

(** The rows selected are the data rows with a blank "Email sent" cell, top
    to bottom. *)
Lemma unprocessedRows_rowNumbers `{Runtime} (ci : ColumnIndices) (vals : Grid) :
  map rowNumber (unprocessedRows ci vals)
  = filter (fun r => isBlank (cellOf ci vals r emailSent)) (dataRows vals).
Proof.
  unfold unprocessedRows, dataRows, cellOf.
  rewrite unprocessedFrom_rowNumbers, length_skipn_1.
  apply filter_ext_in. intros r Hr. apply in_seq in Hr.
  rewrite nth_skipn_1. replace (S (r - 1 - 1)) with (r - 1) by lia. reflexivity.
Qed.

Lemma unprocessedRows_data `{Runtime} (ci : ColumnIndices) (vals : Grid) (ri : RowInfo) :
  In ri (unprocessedRows ci vals) ->
  forall k, data ri k = cellOf ci vals (rowNumber ri) k.
Proof.
  intros Hin k. unfold cellOf.
  assert (Hr : In (rowNumber ri) (map rowNumber (unprocessedRows ci vals)))
    by now apply in_map.
  rewrite unprocessedRows_rowNumbers in Hr. apply filter_In in Hr.
  destruct Hr as [Hr _]. apply in_seq in Hr.
  unfold unprocessedRows in Hin. rewrite (unprocessedFrom_data _ _ _ _ Hin k), nth_skipn_1.
  replace (S (rowNumber ri - 1 - 1)) with (rowNumber ri - 1) by lia. reflexivity.
Qed.

Lemma unprocessedRows_In `{Runtime} (ci : ColumnIndices) (vals : Grid) (r : nat) :
  In r (map rowNumber (unprocessedRows ci vals))
  <-> (2 <= r <= List.length vals) /\ isBlank (cellOf ci vals r emailSent) = true.
Proof.
  rewrite unprocessedRows_rowNumbers, filter_In. unfold dataRows. rewrite in_seq.
  split; intros [? ?]; split; auto; lia.
Qed.

Lemma unprocessedRows_NoDup `{Runtime} (ci : ColumnIndices) (vals : Grid) :
  NoDup (map rowNumber (unprocessedRows ci vals)).
Proof.
  rewrite unprocessedRows_rowNumbers. apply NoDup_filter, seq_NoDup.
Qed.

(** C5, as the code has it.  The rows selected are exactly the data rows
    (header excluded) whose "Email sent" cell is falsy (an empty string, the
    number 0, [false], an absent cell) or a string of white space, in sheet
    order, each with the cells of its own row; a row that carries a timestamp
    or the text "invalid name" is not selected. *)
Theorem row_selector `{Runtime} (ci : ColumnIndices) (vals : Grid) :
  map rowNumber (unprocessedRows ci vals)
  = filter (fun r => falsyOrWhitespace (cellOf ci vals r emailSent)) (dataRows vals)
  /\ (forall ri, In ri (unprocessedRows ci vals) ->
        forall k, data ri k = cellOf ci vals (rowNumber ri) k)
  /\ (forall r, (exists ms, cellOf ci vals r emailSent = VDate ms)
                \/ cellOf ci vals r emailSent = invalidName ->
        ~ In r (map rowNumber (unprocessedRows ci vals))).
Proof.
  split; [|split].
  - rewrite unprocessedRows_rowNumbers. apply filter_ext.
    intros r. apply isBlank_falsyOrWhitespace.
  - apply unprocessedRows_data.
  - intros r Hc Hin. apply unprocessedRows_In in Hin. destruct Hin as [_ Hb].
    destruct Hc as [[ms Hc]|Hc]; rewrite Hc in Hb.
    + now rewrite timestamp_not_blank in Hb.
    + discriminate.
Qed.

Lemma row_selector_witness :
  map rowNumber (unprocessedRows (H := Utc.runtime) Sample.indices Sample.sheet) = [2; 4].
Proof.
  rewrite (proj1 (row_selector (H := Utc.runtime) Sample.indices Sample.sheet)).
  reflexivity.
Defined.

(** The "Email sent" cell of row 2 holds the number 0: it is neither empty
    nor white space, and the row is selected. *)
Lemma row_selector_zero :
  cellOf Sample.indices Sample.zeroSheet 2 emailSent = VNum 0
  /\ map rowNumber (unprocessedRows (H := Utc.runtime) Sample.indices Sample.zeroSheet) = [2]
  /\ map rowNumber (unprocessedRows (H := Utc.runtime) Sample.indices Sample.zeroSheet)
     <> filter (fun r => emptyOrWhitespace (cellOf Sample.indices Sample.zeroSheet r emailSent))
          (dataRows Sample.zeroSheet).
Proof. split; [reflexivity|]. split; [reflexivity|]. discriminate. Qed.

(** ** Cell writes *)

Lemma nth_setNth_same {A : Type} (d d' : A) (l : list A) (i : nat) (v : A) :
  nth i (setNth d l i v) d' = v.
Proof.
  revert l. induction i as [|i IH]; intros [|x l]; simpl; auto.
Qed.

Lemma nth_setNth_other {A : Type} (d : A) (l : list A) (i j : nat) (v : A) :
  j <> i -> nth j (setNth d l i v) d = nth j l d.
Proof.
  revert l j. induction i as [|i IH]; intros [|x l] [|j] Hj; simpl; auto; try lia.
  - now destruct j.
  - rewrite IH by lia. now destruct j.
Qed.

Lemma length_setNth {A : Type} (d : A) (l : list A) (i : nat) (v : A) :
  i < List.length l -> List.length (setNth d l i v) = List.length l.
Proof.
  revert l. induction i as [|i IH]; intros [|x l]; simpl; try lia.
  intros Hi. rewrite IH; lia.
Qed.

Lemma writeCell_cell (g : Grid) (r c : nat) (v : Value) :
  nth (c - 1) (nth (r - 1) (writeCell g r c v) []) VUndefined = v.
Proof. unfold writeCell. now rewrite !nth_setNth_same. Qed.

Lemma writeCell_other_row (g : Grid) (r c j : nat) (v : Value) :
  j <> r - 1 -> nth j (writeCell g r c v) [] = nth j g [].
Proof. intros Hj. unfold writeCell. now rewrite nth_setNth_other. Qed.

Lemma writeCell_length (g : Grid) (r c : nat) (v : Value) :
  1 <= r <= List.length g -> List.length (writeCell g r c v) = List.length g.
Proof. intros Hr. unfold writeCell. apply length_setNth. lia. Qed.

(** ** One row *)

Section OneRow.

Context `{Runtime} (env : Env) (cd : ColumnData) (e : nat).
Hypothesis emailSent_column : columnIndices cd emailSent = Some e.

(** The callback of the loop, case by case: the verdict of the validator,
    then the calls made and whether each raised. *)
Lemma processRow_cases (st : State) (ri : RowInfo) :
  let r := rowNumber ri in
  let m := lateSheetEmail (data ri) in
  let sent := {| grid := grid st; outbox := outbox st ++ [m] |} in
  processRow env cd st ri =
    if negb (isValidName (getRange_getValues env st) (nameValidation cd) (data ri name)) then
      if (r =? 0)%nat || setValue_raises env st r (S e) invalidName
      then (st, MarkFailed)
      else ({| grid := writeCell (grid st) r (S e) invalidName; outbox := outbox st |},
            MarkedInvalid)
    else if sendEmail_raises env st m then (st, SendFailed m)
    else if (r =? 0)%nat || setValue_raises env sent r (S e) (VDate (now env sent))
         then (sent, StampFailed m)
         else ({| grid := writeCell (grid st) r (S e) (VDate (now env sent));
                  outbox := outbox st ++ [m] |},
               Notified m (now env sent)).
Proof.
  intros r m sent. unfold processRow, sendLateSheetEmail, setValue.
  rewrite emailSent_column. cbn [option_map]. fold r m.
  change (S e =? 0)%nat with false. rewrite orb_false_r.
  destruct (negb _).
  - now destruct ((r =? 0)%nat || _).
  - destruct (sendEmail_raises env st m); auto.
    fold sent. cbn [grid outbox]. now destruct ((r =? 0)%nat || _).
Qed.

(** What a row's callback does to the state is told by its outcome. *)
Lemma processRow_effects (st st' : State) (ri : RowInfo) (o : Outcome) :
  processRow env cd st ri = (st', o) ->
  outbox st' = outbox st ++ match dispatched o with Some m => [m] | None => [] end
  /\ grid st' = match written o with
                | Some v => writeCell (grid st) (rowNumber ri) (S e) v
                | None => grid st
                end.
Proof.
  rewrite processRow_cases.
  destruct (negb _).
  - destruct (_ || _); intros [= <- <-]; simpl; now rewrite ?app_nil_r.
  - destruct (sendEmail_raises _ _ _); [intros [= <- <-]; simpl; now rewrite app_nil_r|].
    destruct (_ || _); intros [= <- <-]; simpl; auto.
Qed.

Lemma processRow_row_other (st st' : State) (ri : RowInfo) (o : Outcome) (j : nat) :
  processRow env cd st ri = (st', o) ->
  j <> rowNumber ri - 1 ->
  nth j (grid st') [] = nth j (grid st) [].
Proof.
  intros Hp Hj. apply processRow_effects in Hp. destruct Hp as [_ ->].
  destruct (written o); auto. now apply writeCell_other_row.
Qed.

Lemma processRow_length (st st' : State) (ri : RowInfo) (o : Outcome) :
  processRow env cd st ri = (st', o) ->
  1 <= rowNumber ri <= List.length (grid st) ->
  List.length (grid st') = List.length (grid st).
Proof.
  intros Hp Hr. apply processRow_effects in Hp. destruct Hp as [_ ->].
  destruct (written o); auto. now apply writeCell_length.
Qed.

(** ** The loop over the selected rows *)

Lemma processRows_app (rows1 rows2 : list RowInfo) (st : State) :
  processRows env cd (rows1 ++ rows2) st
  = let (st1, log1) := processRows env cd rows1 st in
    let (st2, log2) := processRows env cd rows2 st1 in
    (st2, log1 ++ log2).
Proof.
  revert st. induction rows1 as [|ri rows1 IH]; intros st; simpl.
  - now destruct (processRows env cd rows2 st).
  - destruct (processRow env cd st ri) as [st1 o]. rewrite IH.
    destruct (processRows env cd rows1 st1) as [st2 log1].
    now destruct (processRows env cd rows2 st2).
Qed.

(** Every row handed to the loop gets its log entry, in order, whatever
    happened to the rows before it. *)
Lemma processRows_log_rows (rows : list RowInfo) (st : State) :
  map fst (snd (processRows env cd rows st)) = map rowNumber rows.
Proof.
  revert st. induction rows as [|ri rows IH]; intros st; simpl; auto.
  destruct (processRow env cd st ri) as [st1 o]. specialize (IH st1).
  destruct (processRows env cd rows st1) as [st2 log]. simpl in *. now rewrite IH.
Qed.

Lemma processRows_outbox (rows : list RowInfo) (st : State) :
  outbox (fst (processRows env cd rows st))
  = outbox st ++ allMails (snd (processRows env cd rows st)).
Proof.
  revert st. induction rows as [|ri rows IH]; intros st; simpl.
  - now rewrite app_nil_r.
  - destruct (processRow env cd st ri) as [st1 o] eqn:E. specialize (IH st1).
    destruct (processRows env cd rows st1) as [st2 log]. simpl in *.
    apply processRow_effects in E. destruct E as [E _].
    rewrite IH, E, <- app_assoc. reflexivity.
Qed.

(** Rows of the sheet that are not in the loop's list keep their cells. *)
Lemma processRows_row_other (rows : list RowInfo) (st : State) (j : nat) :
  (forall ri, In ri rows -> j <> rowNumber ri - 1) ->
  nth j (grid (fst (processRows env cd rows st))) [] = nth j (grid st) [].
Proof.
  revert st. induction rows as [|ri rows IH]; intros st Hj; simpl; auto.
  destruct (processRow env cd st ri) as [st1 o] eqn:E. specialize (IH st1).
  destruct (processRows env cd rows st1) as [st2 log]. simpl in *.
  rewrite IH by auto. eapply processRow_row_other; eauto.
Qed.

Lemma processRows_length (rows : list RowInfo) (st : State) :
  (forall ri, In ri rows -> 1 <= rowNumber ri <= List.length (grid st)) ->
  List.length (grid (fst (processRows env cd rows st))) = List.length (grid st).
Proof.
  revert st. induction rows as [|ri rows IH]; intros st Hr; simpl; auto.
  destruct (processRow env cd st ri) as [st1 o] eqn:E. specialize (IH st1).
  destruct (processRows env cd rows st1) as [st2 log]. simpl in *.
  pose proof (processRow_length _ _ _ _ E (Hr ri (or_introl eq_refl))) as L.
  rewrite IH; auto. intros ri' Hri'. rewrite L. auto.
Qed.

(** The run seen from one of its rows: the rows before it, its own callback,
    the rows after it. *)
Lemma processRows_split (rows : list RowInfo) (st : State) (ri : RowInfo) :
  In ri rows ->
  exists pre post,
    rows = pre ++ ri :: post
    /\ let st0 := fst (processRows env cd pre st) in
       let st1 := fst (processRow env cd st0 ri) in
       let o := snd (processRow env cd st0 ri) in
       processRows env cd rows st
       = (fst (processRows env cd post st1),
          snd (processRows env cd pre st) ++ (rowNumber ri, o)
            :: snd (processRows env cd post st1)).
Proof.
  intros Hin. apply in_split in Hin. destruct Hin as [pre [post ->]].
  exists pre, post. split; auto.
  rewrite processRows_app. simpl.
  destruct (processRows env cd pre st) as [st0 log0]. simpl.
  destruct (processRow env cd st0 ri) as [st1 o]. simpl.
  now destruct (processRows env cd post st1).
Qed.

End OneRow.

(** ** One run *)

Lemma readColumnData_Some (env : Env) (vals : Grid) (cd : ColumnData) :
  readColumnData env vals = Some cd ->
  2 <= List.length vals
  /\ resolveColumns (nth 0 vals []) = Some (columnIndices cd)
  /\ values cd = vals.
Proof.
  unfold readColumnData.
  destruct (Nat.ltb_spec (List.length vals) 2); [discriminate|].
  destruct (resolveColumns (nth 0 vals [])) as [ci|]; [|discriminate].
  intros [= <-]. auto.
Qed.

Lemma readColumnData_resolved (env : Env) (vals : Grid) (ci : ColumnIndices) :
  2 <= List.length vals -> resolveColumns (nth 0 vals []) = Some ci ->
  exists cd, readColumnData env vals = Some cd /\ columnIndices cd = ci /\ values cd = vals.
Proof.
  intros Hl Hr. unfold readColumnData. rewrite Hr.
  destruct (Nat.ltb_spec (List.length vals) 2); [lia|]. eauto.
Qed.

Lemma processSheet_read `{Runtime} (env : Env) (st : State) (cd : ColumnData) :
  readColumnData env (grid st) = Some cd ->
  processSheet env st
  = processRows env cd (unprocessedRows (columnIndices cd) (grid st)) st.
Proof.
  intros Hr. unfold processSheet. rewrite Hr.
  apply readColumnData_Some in Hr. destruct Hr as [_ [_ ->]]. reflexivity.
Qed.

Lemma unprocessed_iff `{Runtime} (g : Grid) (r : nat) :
  unprocessed g r = true
  <-> exists ci, resolveColumns (nth 0 g []) = Some ci
                 /\ In r (map rowNumber (unprocessedRows ci g)).
Proof.
  unfold unprocessed. split.
  - intros Hu. apply andb_true_iff in Hu. destruct Hu as [Hu Hb].
    apply andb_true_iff in Hu. destruct Hu as [H2 Hl].
    apply Nat.leb_le in H2, Hl.
    destruct (resolveColumns (nth 0 g [])) as [ci|]; [|discriminate].
    exists ci. split; auto. apply unprocessedRows_In. auto.
  - intros [ci [-> Hin]]. apply unprocessedRows_In in Hin.
    destruct Hin as [[H2 Hl] ->].
    apply Nat.leb_le in H2, Hl. now rewrite H2, Hl.
Qed.

(** The log of a run lists the rows the run selects, each once. *)
Lemma processSheet_log_rows `{Runtime} (env : Env) (st : State) (r : nat) :
  In r (map fst (snd (processSheet env st))) <-> unprocessed (grid st) r = true.
Proof.
  rewrite unprocessed_iff.
  destruct (readColumnData env (grid st)) as [cd|] eqn:E.
  - rewrite (processSheet_read _ _ _ E), processRows_log_rows.
    apply readColumnData_Some in E. destruct E as [_ [E _]].
    split; [eauto|]. intros [ci [Hci Hin]]. congruence.
  - rewrite readColumnData_None_abort by auto. simpl. split; [intros []|].
    intros [ci [Hci Hin]].
    assert (2 <= List.length (grid st)).
    { apply in_map_iff in Hin. destruct Hin as [ri [_ Hin]].
      apply (in_map rowNumber) in Hin. apply unprocessedRows_In in Hin. lia. }
    destruct (readColumnData_resolved env _ _ H0 Hci) as [cd [Hcd _]]. congruence.
Qed.

Lemma processSheet_log_NoDup `{Runtime} (env : Env) (st : State) :
  NoDup (map fst (snd (processSheet env st))).
Proof.
  destruct (readColumnData env (grid st)) as [cd|] eqn:E.
  - rewrite (processSheet_read _ _ _ E), processRows_log_rows.
    apply unprocessedRows_NoDup.
  - rewrite readColumnData_None_abort by auto. constructor.
Qed.

Lemma processSheet_outbox `{Runtime} (env : Env) (st : State) :
  outbox (fst (processSheet env st))
  = outbox st ++ allMails (snd (processSheet env st)).
Proof.
  destruct (readColumnData env (grid st)) as [cd|] eqn:E.
  - rewrite (processSheet_read _ _ _ E).
    destruct (resolveColumns_total _ _ emailSent
                (proj1 (proj2 (readColumnData_Some _ _ _ E)))) as [e He].
    apply (processRows_outbox env cd e He).
  - rewrite readColumnData_None_abort by auto. simpl. now rewrite app_nil_r.
Qed.

(** A run keeps the header row and the number of rows. *)
Lemma processSheet_header `{Runtime} (env : Env) (st : State) :
  nth 0 (grid (fst (processSheet env st))) [] = nth 0 (grid st) [].
Proof.
  destruct (readColumnData env (grid st)) as [cd|] eqn:E.
  - rewrite (processSheet_read _ _ _ E).
    destruct (resolveColumns_total _ _ emailSent
                (proj1 (proj2 (readColumnData_Some _ _ _ E)))) as [e He].
    apply (processRows_row_other env cd e He).
    intros ri Hri. apply (in_map rowNumber) in Hri.
    apply unprocessedRows_In in Hri. lia.
  - now rewrite readColumnData_None_abort.
Qed.

Lemma processSheet_length `{Runtime} (env : Env) (st : State) :
  List.length (grid (fst (processSheet env st))) = List.length (grid st).
Proof.
  destruct (readColumnData env (grid st)) as [cd|] eqn:E.
  - rewrite (processSheet_read _ _ _ E).
    destruct (resolveColumns_total _ _ emailSent
                (proj1 (proj2 (readColumnData_Some _ _ _ E)))) as [e He].
    apply (processRows_length env cd e He).
    intros ri Hri. apply (in_map rowNumber) in Hri.
    apply unprocessedRows_In in Hri. lia.
  - now rewrite readColumnData_None_abort.
Qed.

(** A row the run does not select keeps its cells. *)
Lemma processSheet_row_skipped `{Runtime} (env : Env) (st : State) (r : nat) :
  1 <= r -> ~ In r (map fst (snd (processSheet env st))) ->
  nth (r - 1) (grid (fst (processSheet env st))) [] = nth (r - 1) (grid st) [].
Proof.
  intros Hr Hn.
  destruct (readColumnData env (grid st)) as [cd|] eqn:E.
  - rewrite (processSheet_read _ _ _ E) in *.
    destruct (resolveColumns_total _ _ emailSent
                (proj1 (proj2 (readColumnData_Some _ _ _ E)))) as [e He].
    apply (processRows_row_other env cd e He).
    intros ri Hri Heq. apply Hn. rewrite processRows_log_rows.
    apply (in_map rowNumber) in Hri.
    pose proof (proj1 (unprocessedRows_In _ _ _) Hri) as Hb.
    replace r with (rowNumber ri) by lia. exact Hri.
  - now rewrite readColumnData_None_abort.
Qed.

Lemma emailSentCell_ext (g g' : Grid) (r : nat) :
  nth 0 g' [] = nth 0 g [] -> nth (r - 1) g' [] = nth (r - 1) g [] ->
  emailSentCell g' r = emailSentCell g r.
Proof. unfold emailSentCell. now intros -> ->. Qed.

Lemma emailSentCell_cellOf (g : Grid) (ci : ColumnIndices) (r : nat) :
  resolveColumns (nth 0 g []) = Some ci ->
  emailSentCell g r = cellOf ci g r emailSent.
Proof. unfold emailSentCell. now intros ->. Qed.

Lemma emailSentCell_written (g : Grid) (ci : ColumnIndices) (e r : nat) (v : Value) :
  resolveColumns (nth 0 g []) = Some ci -> ci emailSent = Some e -> 2 <= r ->
  emailSentCell (writeCell g r (S e) v) r = v.
Proof.
  intros Hci He Hr. unfold emailSentCell.
  rewrite writeCell_other_row by lia. rewrite Hci, He. unfold cellAt.
  pose proof (writeCell_cell g r (S e) v) as W.
  now replace (S e - 1) with e in W by lia.
Qed.

(** A run seen from one selected row: the state [st0] in which its callback
    starts, the state [st1] and outcome [o] it ends with, its single log
    entry, and the row's cells, which nothing else in the run touches. *)
Lemma processSheet_row_view `{Runtime} (env : Env) (st : State) (cd : ColumnData)
    (ri : RowInfo) :
  readColumnData env (grid st) = Some cd ->
  In ri (unprocessedRows (columnIndices cd) (grid st)) ->
  exists st0 logBefore logAfter,
    let st1 := fst (processRow env cd st0 ri) in
    let o := snd (processRow env cd st0 ri) in
    snd (processSheet env st) = logBefore ++ (rowNumber ri, o) :: logAfter
    /\ ~ In (rowNumber ri) (map fst logBefore)
    /\ ~ In (rowNumber ri) (map fst logAfter)
    /\ nth 0 (grid st0) [] = nth 0 (grid st) []
    /\ nth (rowNumber ri - 1) (grid st0) [] = nth (rowNumber ri - 1) (grid st) []
    /\ nth (rowNumber ri - 1) (grid (fst (processSheet env st))) []
       = nth (rowNumber ri - 1) (grid st1) []
    /\ outbox st0 = outbox st ++ allMails logBefore.
Proof.
  intros Hcd Hin.
  destruct (resolveColumns_total _ _ emailSent
              (proj1 (proj2 (readColumnData_Some _ _ _ Hcd)))) as [e He].
  pose proof (unprocessedRows_NoDup (columnIndices cd) (grid st)) as ND.
  assert (R2 : forall ri', In ri' (unprocessedRows (columnIndices cd) (grid st)) ->
                           2 <= rowNumber ri').
  { intros ri' Hri'. apply (in_map rowNumber) in Hri'.
    apply unprocessedRows_In in Hri'. lia. }
  rewrite (processSheet_read _ _ _ Hcd).
  destruct (processRows_split env cd _ st ri Hin) as [pre [post [Hrows Hrun]]].
  cbv zeta in Hrun. rewrite Hrun. cbn [fst snd].
  rewrite Hrows, map_app in ND. cbn [map] in ND.
  apply NoDup_remove_2 in ND as Hnot.
  assert (Hpre : forall ri', In ri' pre -> rowNumber ri' <> rowNumber ri).
  { intros ri' Hri' Heq. apply Hnot, in_or_app. left.
    rewrite <- Heq. now apply in_map. }
  assert (Hpost : forall ri', In ri' post -> rowNumber ri' <> rowNumber ri).
  { intros ri' Hri' Heq. apply Hnot, in_or_app. right.
    rewrite <- Heq. now apply in_map. }
  assert (Hsub : forall ri', In ri' pre \/ In ri' post -> 2 <= rowNumber ri').
  { intros ri' Hri'. apply R2. rewrite Hrows. apply in_or_app.
    destruct Hri'; [left | right; right]; auto. }
  pose proof (R2 ri Hin) as Hr2.
  exists (fst (processRows env cd pre st)),
         (snd (processRows env cd pre st)),
         (snd (processRows env cd post
                 (fst (processRow env cd (fst (processRows env cd pre st)) ri)))).
  cbv zeta. repeat split.
  - rewrite processRows_log_rows. intros Hc. apply in_map_iff in Hc.
    destruct Hc as [ri' [Heq Hri']]. now apply (Hpre ri').
  - rewrite processRows_log_rows. intros Hc. apply in_map_iff in Hc.
    destruct Hc as [ri' [Heq Hri']]. now apply (Hpost ri').
  - apply (processRows_row_other env cd e He).
    intros ri' Hri'. specialize (Hsub ri' (or_introl Hri')). lia.
  - apply (processRows_row_other env cd e He).
    intros ri' Hri'. specialize (Hsub ri' (or_introl Hri')).
    specialize (Hpre ri' Hri'). lia.
  - apply (processRows_row_other env cd e He).
    intros ri' Hri'. specialize (Hsub ri' (or_intror Hri')).
    specialize (Hpost ri' Hri'). lia.
  - apply (processRows_outbox env cd e He).
Qed.

(** An entry of the log, with the "Email sent" cell of its row after the run:
    the value written, or the cell as it was. *)
Lemma processSheet_entry `{Runtime} (env : Env) (st : State) (r : nat) (o : Outcome) :
  In (r, o) (snd (processSheet env st)) ->
  emailSentCell (grid (fst (processSheet env st))) r
  = match written o with
    | Some v => v
    | None => emailSentCell (grid st) r
    end.
Proof.
  intros Hin.
  destruct (readColumnData env (grid st)) as [cd|] eqn:Hcd;
    [|rewrite readColumnData_None_abort in Hin by auto; destruct Hin].
  pose proof (readColumnData_Some _ _ _ Hcd) as [_ [Hci _]].
  destruct (resolveColumns_total _ _ emailSent Hci) as [e He].
  assert (Hr : In r (map rowNumber (unprocessedRows (columnIndices cd) (grid st)))).
  { rewrite (processSheet_read _ _ _ Hcd) in Hin.
    rewrite <- (processRows_log_rows env cd _ st). now apply (in_map fst) in Hin. }
  apply in_map_iff in Hr. destruct Hr as [ri [<- Hri]].
  destruct (processSheet_row_view env st cd ri Hcd Hri)
    as [st0 [logB [logA [Hlog [HnB [HnA [Hh0 [Hr0 [Hr1 _]]]]]]]]].
  cbv zeta in *.
  assert (Ho : o = snd (processRow env cd st0 ri)).
  { rewrite Hlog in Hin. apply in_app_or in Hin. destruct Hin as [Hin|[Hin|Hin]].
    - exfalso. apply HnB. now apply (in_map fst) in Hin.
    - congruence.
    - exfalso. apply HnA. now apply (in_map fst) in Hin. }
  destruct (processRow env cd st0 ri) as [st1 o'] eqn:Hp. cbn [fst snd] in *. subst o'.
  pose proof (processRow_effects env cd e He _ _ _ _ Hp) as [_ Hg].
  assert (R2 : 2 <= rowNumber ri).
  { apply (in_map rowNumber) in Hri. apply unprocessedRows_In in Hri. lia. }
  unfold emailSentCell at 1. rewrite processSheet_header, Hr1, Hci, Hg.
  destruct (written o) as [v|].
  - rewrite He. unfold cellAt.
    pose proof (writeCell_cell (grid st0) (rowNumber ri) (S e) v) as W.
    now replace (S e - 1) with e in W by lia.
  - rewrite Hr0. unfold emailSentCell. now rewrite Hci.
Qed.

(** ** The state transition of a row *)

Lemma filter_row_absent (r : nat) (log : Log) :
  ~ In r (map fst log) -> filter (fun e => (fst e =? r)%nat) log = [].
Proof.
  induction log as [|[r' o] log IH]; simpl; auto.
  intros Hn. destruct (Nat.eqb_spec r' r); [exfalso; auto|]. apply IH. tauto.
Qed.

Lemma countRow_filter (p : Outcome -> bool) (r : nat) (log : Log) :
  countRow p r log
  = List.length (filter (fun e => p (snd e)) (filter (fun e => (fst e =? r)%nat) log)).
Proof.
  unfold countRow. induction log as [|[r' o] log IH]; simpl; auto.
  destruct (r' =? r)%nat; simpl; auto. destruct (p o); simpl; auto.
Qed.

Lemma countRow_single (p : Outcome -> bool) (r : nat) (log : Log) (o : Outcome) :
  filter (fun e => (fst e =? r)%nat) log = [(r, o)] ->
  countRow p r log = if p o then 1 else 0.
Proof. intros Hf. rewrite countRow_filter, Hf. simpl. now destruct (p o). Qed.

(** The callback of a selected row, seen from the whole run: its single log
    entry, the state it starts in, and what it does in each case. *)
Lemma selected_row_cases `{Runtime} (env : Env) (st : State) (cd : ColumnData) (ri : RowInfo) :
  readColumnData env (grid st) = Some cd ->
  In ri (unprocessedRows (columnIndices cd) (grid st)) ->
  let r := rowNumber ri in
  let m := lateSheetEmail (data ri) in
  let final := fst (processSheet env st) in
  let log := snd (processSheet env st) in
  exists e st0 o,
    columnIndices cd emailSent = Some e
    /\ filter (fun entry => (fst entry =? r)%nat) log = [(r, o)]
    /\ emailSentCell (grid st0) r = emailSentCell (grid st) r
    /\ (isValidName (getRange_getValues env st0) (nameValidation cd) (data ri name) = false ->
          handedOver o = None
          /\ dispatches r log = 0
          /\ ((setValue_raises env st0 r (S e) invalidName = false
               /\ o = MarkedInvalid
               /\ emailSentCell (grid final) r = invalidName)
              \/ (setValue_raises env st0 r (S e) invalidName = true
                  /\ o = MarkFailed
                  /\ emailSentCell (grid final) r = emailSentCell (grid st) r)))
    /\ (isValidName (getRange_getValues env st0) (nameValidation cd) (data ri name) = true ->
          let sent := {| grid := grid st0; outbox := outbox st0 ++ [m] |} in
          let timestamp := now env sent in
          handedOver o = Some m
          /\ ((sendEmail_raises env st0 m = true
               /\ o = SendFailed m
               /\ dispatches r log = 0
               /\ emailSentCell (grid final) r = emailSentCell (grid st) r)
              \/ (sendEmail_raises env st0 m = false
                  /\ dispatches r log = 1
                  /\ In m (outbox final)
                  /\ ((setValue_raises env sent r (S e) (VDate timestamp) = false
                       /\ o = Notified m timestamp
                       /\ emailSentCell (grid final) r = VDate timestamp)
                      \/ (setValue_raises env sent r (S e) (VDate timestamp) = true
                          /\ o = StampFailed m
                          /\ emailSentCell (grid final) r
                             = emailSentCell (grid st) r))))).
Proof.
  intros Hcd Hri r m final log.
  pose proof (readColumnData_Some _ _ _ Hcd) as [_ [Hci _]].
  destruct (resolveColumns_total _ _ emailSent Hci) as [e He].
  destruct (processSheet_row_view env st cd ri Hcd Hri)
    as [st0 [logB [logA [Hlog [HnB [HnA [Hh0 [Hr0 [Hr1 Hout]]]]]]]]].
  cbv zeta in *. fold r in Hlog, HnB, HnA, Hr0, Hr1. fold log in Hlog.
  assert (R2 : 2 <= r).
  { apply (in_map rowNumber) in Hri. apply unprocessedRows_In in Hri. unfold r. lia. }
  assert (R0 : (r =? 0)%nat = false) by (apply Nat.eqb_neq; lia).
  set (o := snd (processRow env cd st0 ri)) in *.
  assert (Hf : filter (fun entry => (fst entry =? r)%nat) log = [(r, o)]).
  { rewrite Hlog, filter_app. cbn [filter fst]. rewrite Nat.eqb_refl.
    now rewrite !filter_row_absent by assumption. }
  assert (Hin : In (r, o) log) by (rewrite Hlog; apply in_or_app; right; now left).
  pose proof (processSheet_entry env st r o Hin) as Hcell. fold final in Hcell.
  exists e, st0, o. split; [exact He|]. split; [exact Hf|].
  split; [now apply emailSentCell_ext|].
  pose proof (processRow_cases env cd e He st0 ri) as Hcases. cbv zeta in Hcases.
  fold r m in Hcases. rewrite R0 in Hcases. cbn [orb] in Hcases.
  unfold dispatches. rewrite (countRow_single _ _ _ _ Hf).
  split; intros Hv; rewrite Hv in Hcases; cbn [negb] in Hcases.
  - destruct (setValue_raises env st0 r (S e) invalidName) eqn:Hw;
      assert (Ho : o = snd (processRow env cd st0 ri)) by reflexivity;
      rewrite Hcases in Ho; cbn [snd] in Ho; rewrite Ho in *; cbn in Hcell |- *;
      split; auto.
  - destruct (sendEmail_raises env st0 m) eqn:Hs.
    + assert (Ho : o = snd (processRow env cd st0 ri)) by reflexivity.
      rewrite Hcases in Ho; cbn [snd] in Ho. rewrite Ho in *. cbn in Hcell |- *.
      split; auto.
    + assert (Hmail : forall o', o = o' -> dispatched o' = Some m -> In m (outbox final)).
      { intros o' Heq Hd. unfold final. rewrite processSheet_outbox.
        apply in_or_app. right. unfold allMails. apply in_flat_map.
        exists (r, o). split; [exact Hin|]. cbn [snd]. rewrite Heq, Hd. now left. }
      destruct (setValue_raises env _ r (S e) _) eqn:Hw;
        assert (Ho : o = snd (processRow env cd st0 ri)) by reflexivity;
        rewrite Hcases in Ho; cbn [snd] in Ho;
        pose proof (Hmail _ Ho eq_refl) as Hbox;
        rewrite Ho in *; cbn in Hcell |- *; split; auto 10.
Qed.

(** C3, as the code has it.  For every row a run selects, the log has
    exactly one entry, made by the row's callback in a state where the row is
    as the run found it.  If the validator rejects the name, no mail is handed
    to the transport, and "invalid name" is written into the row's "Email
    sent" cell unless that write raises, in which case the cell stays as it
    was.  Otherwise exactly one mail, the row's, is handed to the transport.
    If the transport refuses it, no notification is dispatched and nothing is
    written.  If it accepts, exactly one notification is dispatched and the
    current time is then written into the row's "Email sent" cell unless that
    write raises, in which case the cell stays as it was. *)
Theorem row_transition `{Runtime} (env : Env) (st : State) (cd : ColumnData) (ri : RowInfo) :
  readColumnData env (grid st) = Some cd ->
  In ri (unprocessedRows (columnIndices cd) (grid st)) ->
  let r := rowNumber ri in
  let m := lateSheetEmail (data ri) in
  let final := fst (processSheet env st) in
  let log := snd (processSheet env st) in
  exists e st0 o,
    columnIndices cd emailSent = Some e
    /\ filter (fun entry => (fst entry =? r)%nat) log = [(r, o)]
    /\ emailSentCell (grid st0) r = emailSentCell (grid st) r
    /\ (isValidName (getRange_getValues env st0) (nameValidation cd) (data ri name) = false ->
          handedOver o = None
          /\ dispatches r log = 0
          /\ ((setValue_raises env st0 r (S e) invalidName = false
               /\ o = MarkedInvalid
               /\ emailSentCell (grid final) r = invalidName)
              \/ (setValue_raises env st0 r (S e) invalidName = true
                  /\ o = MarkFailed
                  /\ emailSentCell (grid final) r = emailSentCell (grid st) r)))
    /\ (isValidName (getRange_getValues env st0) (nameValidation cd) (data ri name) = true ->
          let sent := {| grid := grid st0; outbox := outbox st0 ++ [m] |} in
          let timestamp := now env sent in
          handedOver o = Some m
          /\ ((sendEmail_raises env st0 m = true
               /\ o = SendFailed m
               /\ dispatches r log = 0
               /\ emailSentCell (grid final) r = emailSentCell (grid st) r)
              \/ (sendEmail_raises env st0 m = false
                  /\ dispatches r log = 1
                  /\ In m (outbox final)
                  /\ ((setValue_raises env sent r (S e) (VDate timestamp) = false
                       /\ o = Notified m timestamp
                       /\ emailSentCell (grid final) r = VDate timestamp)
                      \/ (setValue_raises env sent r (S e) (VDate timestamp) = true
                          /\ o = StampFailed m
                          /\ emailSentCell (grid final) r
                             = emailSentCell (grid st) r))))).
Proof. apply selected_row_cases. Qed.

Lemma row_transition_witness :
  readColumnData Sample.calm (grid Sample.start) = Some (Sample.columnData Sample.calm)
  /\ In (Sample.firstRow Sample.calm)
        (unprocessedRows (H := Utc.runtime)
           (columnIndices (Sample.columnData Sample.calm)) (grid Sample.start))
  /\ exists o,
       filter (fun entry => (fst entry =? 2)%nat)
              (snd (processSheet (H := Utc.runtime) Sample.calm Sample.start))
       = [(2, o)].
Proof.
  assert (Hcd : readColumnData Sample.calm (grid Sample.start)
                = Some (Sample.columnData Sample.calm)) by reflexivity.
  assert (Hri : In (Sample.firstRow Sample.calm)
                  (unprocessedRows (H := Utc.runtime)
                     (columnIndices (Sample.columnData Sample.calm)) (grid Sample.start)))
    by (left; reflexivity).
  split; [exact Hcd|]. split; [exact Hri|].
  destruct (row_transition (H := Utc.runtime) Sample.calm Sample.start
              (Sample.columnData Sample.calm) (Sample.firstRow Sample.calm) Hcd Hri)
    as [e [st0 [o [_ [Hf _]]]]].
  exists o. exact Hf.
Defined.

(** The validator rejects "alice" under the rule and the sheet refuses the
    write: the row is not marked, its cell stays empty.  The validator admits
    "alice" without a rule and the transport is down: no notification is
    dispatched for the row and nothing is written. *)
Lemma row_transition_unresolved :
  isValidName (H := Utc.runtime) (fun _ => Throws)
    (Some (Sample.listRule ["Alice"; "Bob"])) (VStr "alice") = false
  /\ snd (processSheet (H := Utc.runtime) Sample.ruleAndWritesRefused Sample.start)
     = [(2, MarkFailed); (4, MarkFailed)]
  /\ emailSentCell
       (grid (fst (processSheet (H := Utc.runtime) Sample.ruleAndWritesRefused Sample.start))) 2
     = VStr ""
  /\ emailSentCell
       (grid (fst (processSheet (H := Utc.runtime) Sample.ruleAndWritesRefused Sample.start))) 2
     <> invalidName
  /\ isValidName (H := Utc.runtime) (fun _ => Throws) None (VStr "alice") = true
  /\ dispatches 2 (snd (processSheet (H := Utc.runtime) Sample.mailDown Sample.start)) = 0
  /\ outbox (fst (processSheet (H := Utc.runtime) Sample.mailDown Sample.start)) = []
  /\ emailSentCell
       (grid (fst (processSheet (H := Utc.runtime) Sample.mailDown Sample.start))) 2
     = VStr "".
Proof. vm_compute. repeat split. discriminate. Qed.

(** On the sample sheet with calm services, rows 2 and 4 are mailed and
    stamped, and row 3, already stamped, is left alone. *)
Example sample_run :
  map fst (snd (processSheet (H := Utc.runtime) Sample.calm Sample.start)) = [2; 4]
  /\ map (fun r => emailSentCell (grid (fst (processSheet (H := Utc.runtime)
                                                 Sample.calm Sample.start))) r) [2; 3; 4]
     = [VDate 1793629080000; VDate 1793500000000; VDate 1793629080000]
  /\ map to (outbox (fst (processSheet (H := Utc.runtime) Sample.calm Sample.start)))
     = ["alice@directactioneverywhere.com"; "carol@directactioneverywhere.com"].
Proof. vm_compute. auto. Qed.

(** With the rule "Alice or Bob" on the name column, "carol" and "alice" (the
    match is case-sensitive) are marked and nobody is mailed. *)
Example sample_run_rule :
  snd (processSheet (H := Utc.runtime) (Sample.withRule ["Alice"; "Bob"]) Sample.start)
  = [(2, MarkedInvalid); (4, MarkedInvalid)]
  /\ outbox (fst (processSheet (H := Utc.runtime) (Sample.withRule ["Alice"; "Bob"])
                    Sample.start)) = [].
Proof. vm_compute. auto. Qed.

(** ** What a run leaves for the next one *)

Lemma unprocessed_emailSentCell `{Runtime} (g : Grid) (r : nat) :
  unprocessed g r
  = (2 <=? r)%nat && (r <=? List.length g)%nat
    && (isSome (resolveColumns (nth 0 g [])) && isBlank (emailSentCell g r)).
Proof.
  unfold unprocessed, emailSentCell, cellOf.
  now destruct (resolveColumns (nth 0 g [])).
Qed.

Lemma unprocessed_same `{Runtime} (g g' : Grid) (r : nat) :
  nth 0 g' [] = nth 0 g [] -> List.length g' = List.length g ->
  emailSentCell g' r = emailSentCell g r ->
  unprocessed g' r = unprocessed g r.
Proof. intros Hh Hl Hc. rewrite !unprocessed_emailSentCell. now rewrite Hh, Hl, Hc. Qed.

Lemma written_not_blank `{Runtime} (o : Outcome) (v : Value) :
  written o = Some v -> isBlank v = false.
Proof.
  destruct o; simpl; intros [= <-].
  - apply invalidName_not_blank.
  - apply timestamp_not_blank.
Qed.

Lemma failed_written (o : Outcome) : failed o = true <-> written o = None.
Proof. destruct o; simpl; split; congruence. Qed.

Lemma processSheet_skipped_cell `{Runtime} (env : Env) (st : State) (r : nat) :
  unprocessed (grid st) r = false ->
  emailSentCell (grid (fst (processSheet env st))) r = emailSentCell (grid st) r.
Proof.
  intros Hu. apply emailSentCell_ext; [apply processSheet_header|].
  destruct r as [|r].
  - apply processSheet_header.
  - apply processSheet_row_skipped; [lia|].
    rewrite processSheet_log_rows. congruence.
Qed.

(** After a run, a row is still to be processed iff it was before the run and
    the run wrote nothing into it. *)
Lemma processSheet_unprocessed_after `{Runtime} (env : Env) (st : State) (r : nat) :
  unprocessed (grid (fst (processSheet env st))) r = true
  <-> unprocessed (grid st) r = true
      /\ forall o, In (r, o) (snd (processSheet env st)) -> written o = None.
Proof.
  destruct (unprocessed (grid st) r) eqn:Hu.
  - pose proof (proj2 (processSheet_log_rows env st r) Hu) as Hin.
    apply in_map_iff in Hin. destruct Hin as [[r' o] [Heq Hin]]. cbn in Heq. subst r'.
    pose proof (processSheet_entry env st r o Hin) as Hc.
    assert (Huniq : forall o', In (r, o') (snd (processSheet env st)) -> o' = o).
    { intros o' Hin'. pose proof (processSheet_log_NoDup env st) as ND.
      revert Hin Hin' ND. generalize (snd (processSheet env st)) as l.
      induction l as [|[r1 o1] l IH]; [intros []|]. cbn [map fst].
      intros [E1|H1] [E2|H2] ND; inversion ND; subst.
      - congruence.
      - injection E1 as -> ->. exfalso. apply H3. now apply (in_map fst) in H2.
      - injection E2 as -> ->. exfalso. apply H3. now apply (in_map fst) in H1.
      - auto. }
    destruct (written o) as [v|] eqn:Hw.
    + split.
      * intros Hu'. rewrite unprocessed_emailSentCell in Hu'.
        rewrite Hc, (written_not_blank o v Hw), !andb_false_r in Hu'. discriminate.
      * intros [_ Hall]. specialize (Hall o Hin). congruence.
    + split; [intros _; split; auto; intros o' Ho'; now rewrite (Huniq o' Ho')|].
      intros _. rewrite <- Hu. apply unprocessed_same; auto.
      * apply processSheet_header.
      * apply processSheet_length.
  - rewrite (unprocessed_same (grid st)), Hu.
    + split; [discriminate | intros [? _]; discriminate].
    + apply processSheet_header.
    + apply processSheet_length.
    + now apply processSheet_skipped_cell.
Qed.



(** ** Counting notifications *)

Lemma countRow_app (p : Outcome -> bool) (r : nat) (l1 l2 : Log) :
  countRow p r (l1 ++ l2) = countRow p r l1 + countRow p r l2.
Proof. unfold countRow. now rewrite filter_app, length_app. Qed.

Lemma countRow_absent (p : Outcome -> bool) (r : nat) (log : Log) :
  ~ In r (map fst log) -> countRow p r log = 0.
Proof.
  intros Hn. rewrite countRow_filter, filter_row_absent by assumption. reflexivity.
Qed.

Lemma filter_row_single (r : nat) (o : Outcome) (log : Log) :
  NoDup (map fst log) -> In (r, o) log ->
  filter (fun e => (fst e =? r)%nat) log = [(r, o)].
Proof.
  induction log as [|[r' o'] log IH]; [intros _ []|].
  cbn [map fst filter]. intros ND Hin. inversion ND as [|? ? Hn ND']; subst.
  destruct Hin as [[= -> ->]|Hin].
  - rewrite Nat.eqb_refl. now rewrite filter_row_absent.
  - destruct (Nat.eqb_spec r' r) as [->|_]; auto.
    exfalso. apply Hn. now apply (in_map fst) in Hin.
Qed.

Lemma countRow_le_1 (p : Outcome -> bool) (r : nat) (log : Log) :
  NoDup (map fst log) -> countRow p r log <= 1.
Proof.
  intros ND.
  destruct (in_dec Nat.eq_dec r (map fst log)) as [Hin|Hn].
  - apply in_map_iff in Hin. destruct Hin as [[r' o] [Heq Hin]]. cbn in Heq. subst r'.
    rewrite (countRow_single p r log o (filter_row_single r o log ND Hin)).
    destruct (p o); lia.
  - rewrite countRow_absent; auto.
Qed.

Lemma runs_outbox `{Runtime} (envs : list Env) (st : State) :
  outbox (fst (runs envs st)) = outbox st ++ allMails (snd (runs envs st)).
Proof.
  revert st. induction envs as [|env envs IH]; intros st; simpl.
  - now rewrite app_nil_r.
  - pose proof (processSheet_outbox env st) as E.
    destruct (processSheet env st) as [st1 log1]. specialize (IH st1).
    destruct (runs envs st1) as [st2 log2]. simpl in *.
    unfold allMails in *. now rewrite IH, E, flat_map_app, app_assoc.
Qed.

(** Once a row is not to be processed, no later run has a log entry for it. *)
Lemma runs_resolved `{Runtime} (envs : list Env) (st : State) (r : nat)
    (p : Outcome -> bool) :
  unprocessed (grid st) r = false -> countRow p r (snd (runs envs st)) = 0.
Proof.
  revert st. induction envs as [|env envs IH]; intros st Hu; simpl; auto.
  pose proof (processSheet_log_rows env st r) as Hl.
  pose proof (processSheet_unprocessed_after env st r) as Ha.
  destruct (processSheet env st) as [st1 log1]. specialize (IH st1).
  destruct (runs envs st1) as [st2 log2]. simpl in *.
  rewrite countRow_app, IH.
  - rewrite countRow_absent; auto. intros Hin. apply Hl in Hin. congruence.
  - destruct (unprocessed (grid st1) r); auto.
    destruct (proj1 Ha eq_refl) as [Hc _]. congruence.
Qed.

Lemma runs_dispatches `{Runtime} (envs : list Env) (st : State) (r : nat) :
  dispatches r (snd (runs envs st)) <= 1 + stampFailures r (snd (runs envs st)).
Proof.
  revert st. induction envs as [|env envs IH]; intros st; simpl.
  - unfold dispatches, countRow. simpl. lia.
  - pose proof (processSheet_log_rows env st r) as Hl.
    pose proof (processSheet_unprocessed_after env st r) as Ha.
    pose proof (processSheet_log_NoDup env st) as ND.
    pose proof (runs_resolved envs (fst (processSheet env st)) r) as Hres.
    destruct (processSheet env st) as [st1 log1]. specialize (IH st1).
    cbn [fst] in Hres.
    destruct (runs envs st1) as [st2 log2]. simpl in *.
    unfold dispatches, stampFailures in *. rewrite !countRow_app.
    destruct (in_dec Nat.eq_dec r (map fst log1)) as [Hin|Hn].
    + apply in_map_iff in Hin. destruct Hin as [[r' o] [Heq Hin]]. cbn in Heq. subst r'.
      pose proof (filter_row_single r o log1 ND Hin) as Hf.
      rewrite !(countRow_single _ r log1 o Hf).
      assert (Hw : forall v, written o = Some v ->
                   countRow (fun o => isSome (dispatched o)) r log2 = 0).
      { intros v Hv. apply Hres.
        destruct (unprocessed (grid st1) r); auto.
        destruct (proj1 Ha eq_refl) as [_ Hall]. specialize (Hall o Hin). congruence. }
      destruct o; cbn [dispatched isSome]; try rewrite (Hw _ eq_refl); lia.
    + rewrite !(countRow_absent _ r log1) by assumption. lia.
Qed.

(** C1, as the code has it.  In one run a row has at most one mail
    dispatched and at most one cell written.  Over any number of runs with
    nothing else editing the sheet, whatever the services do, the mails
    dispatched for a row are at most one more than the runs in which the mail
    went out and the stamp then failed: at most one when no stamp fails.  A
    row whose cell is not blank gets none.  The mails of the log are the mails
    the transport received. *)
Theorem notifications_per_row `{Runtime} (envs : list Env) (env : Env) (st : State) (r : nat) :
  dispatches r (snd (processSheet env st)) <= 1
  /\ cellWrites r (snd (processSheet env st)) <= 1
  /\ dispatches r (snd (runs envs st)) <= 1 + stampFailures r (snd (runs envs st))
  /\ (stampFailures r (snd (runs envs st)) = 0 -> dispatches r (snd (runs envs st)) <= 1)
  /\ (unprocessed (grid st) r = false -> dispatches r (snd (runs envs st)) = 0)
  /\ outbox (fst (runs envs st)) = outbox st ++ allMails (snd (runs envs st)).
Proof.
  pose proof (runs_dispatches envs st r) as Hd.
  repeat split.
  - apply countRow_le_1, processSheet_log_NoDup.
  - apply countRow_le_1, processSheet_log_NoDup.
  - exact Hd.
  - intros Hz. lia.
  - apply runs_resolved.
  - apply runs_outbox.
Qed.

Lemma notifications_per_row_witness :
  stampFailures 2 (snd (runs (H := Utc.runtime) [Sample.mailDown; Sample.calm; Sample.calm]
                          Sample.start)) = 0
  /\ dispatches 2 (snd (runs (H := Utc.runtime) [Sample.mailDown; Sample.calm; Sample.calm]
                          Sample.start)) <= 1.
Proof.
  split; [reflexivity|].
  apply (notifications_per_row (H := Utc.runtime)
           [Sample.mailDown; Sample.calm; Sample.calm] Sample.calm Sample.start 2).
  reflexivity.
Defined.

(** The stamp of row 2 fails in the first run, after the mail has gone out;
    the second run mails the row again: two notifications for one row whose
    cell nobody cleared. *)
Lemma notifications_twice :
  emailSentCell (grid (fst (processSheet (H := Utc.runtime) Sample.writesRefused Sample.start))) 2
  = VStr ""
  /\ ~ dispatches 2 (snd (runs (H := Utc.runtime) [Sample.writesRefused; Sample.calm]
                            Sample.start)) <= 1.
Proof. split; [reflexivity|]. vm_compute. lia. Qed.

(** ** Running twice *)

(** C2, as the code has it.  A row the first run resolved (mailed and
    stamped, or marked "invalid name") has a "Email sent" cell that is not
    blank and has no log entry, hence no mail, in the second run.  If no row's
    callback ended in the [catch] in the first run, the second run selects no
    row: it sends nothing and writes nothing. *)
Theorem second_run `{Runtime} (env1 env2 : Env) (st : State) :
  let st1 := fst (processSheet env1 st) in
  let log1 := snd (processSheet env1 st) in
  (forall r o, In (r, o) log1 -> failed o = false ->
     isBlank (emailSentCell (grid st1) r) = false
     /\ ~ In r (map fst (snd (processSheet env2 st1)))
     /\ dispatches r (snd (processSheet env2 st1)) = 0)
  /\ ((forall r o, In (r, o) log1 -> failed o = false) ->
      processSheet env2 st1 = (st1, [])).
Proof.
  intros st1 log1.
  assert (Hres : forall r o, In (r, o) log1 -> failed o = false ->
                   isBlank (emailSentCell (grid st1) r) = false
                   /\ unprocessed (grid st1) r = false).
  { intros r o Hin Hf.
    destruct (written o) as [v|] eqn:Hw;
      [|apply failed_written in Hw; congruence].
    pose proof (processSheet_entry env1 st r o Hin) as Hc. rewrite Hw in Hc.
    fold st1 in Hc. split.
    - rewrite Hc. now apply (written_not_blank o).
    - destruct (unprocessed (grid st1) r) eqn:Hu; auto.
      apply processSheet_unprocessed_after in Hu. destruct Hu as [_ Hu].
      specialize (Hu o Hin). congruence. }
  split.
  - intros r o Hin Hf. destruct (Hres r o Hin Hf) as [Hb Hu].
    assert (Hn : ~ In r (map fst (snd (processSheet env2 st1)))).
    { intros Hc. apply processSheet_log_rows in Hc. congruence. }
    split; [exact Hb|]. split; [exact Hn|]. now apply countRow_absent.
  - intros Hall.
    assert (Hnone : forall r, unprocessed (grid st1) r = false).
    { intros r. destruct (unprocessed (grid st1) r) eqn:Hu; auto.
      apply processSheet_unprocessed_after in Hu. destruct Hu as [Hu Hw].
      apply (proj2 (processSheet_log_rows env1 st r)) in Hu.
      apply in_map_iff in Hu. destruct Hu as [[r' o] [Heq Hin]]. cbn in Heq. subst r'.
      specialize (Hw o Hin). apply failed_written in Hw.
      rewrite (Hall r o Hin) in Hw. discriminate. }
    destruct (readColumnData env2 (grid st1)) as [cd|] eqn:Hcd;
      [|now apply readColumnData_None_abort].
    rewrite (processSheet_read _ _ _ Hcd).
    destruct (unprocessedRows (columnIndices cd) (grid st1)) as [|ri rows] eqn:Hrows; auto.
    exfalso.
    assert (Hu : unprocessed (grid st1) (rowNumber ri) = true).
    { apply unprocessed_iff. exists (columnIndices cd). split.
      - apply (readColumnData_Some _ _ _ Hcd).
      - rewrite Hrows. now left. }
    rewrite Hnone in Hu. discriminate.
Qed.

Lemma second_run_witness :
  (forall r o, In (r, o) (snd (processSheet (H := Utc.runtime) Sample.calm Sample.start)) ->
     failed o = false)
  /\ processSheet (H := Utc.runtime) Sample.calm
       (fst (processSheet (H := Utc.runtime) Sample.calm Sample.start))
     = (fst (processSheet (H := Utc.runtime) Sample.calm Sample.start), []).
Proof.
  assert (Hok : forall r o,
            In (r, o) (snd (processSheet (H := Utc.runtime) Sample.calm Sample.start)) ->
            failed o = false).
  { intros r o [Hin|[Hin|[]]]; injection Hin as <- <-; reflexivity. }
  split; [exact Hok|].
  exact (proj2 (second_run (H := Utc.runtime) Sample.calm Sample.calm Sample.start) Hok).
Defined.

(** The transport is down during the first run: rows 2 and 4 stay blank, and
    the second run, with nothing edited in between, mails both. *)
Lemma second_run_notifies :
  allMails (snd (processSheet (H := Utc.runtime) Sample.mailDown Sample.start)) = []
  /\ grid (fst (processSheet (H := Utc.runtime) Sample.mailDown Sample.start))
     = grid Sample.start
  /\ List.length
       (allMails (snd (processSheet (H := Utc.runtime) Sample.calm
                         (fst (processSheet (H := Utc.runtime) Sample.mailDown
                                 Sample.start))))) = 2.
Proof. vm_compute. auto. Qed.

(** ** The identity validator *)

Lemma someMatches_defined `{Runtime} (vals : list Value) (nameStr : string) :
  ~ In VUndefined vals ->
  someMatches vals nameStr
  = Returns (existsb (fun val => trim (toString val) =? nameStr) vals).
Proof.
  induction vals as [|val vals IH]; intros Hn; [reflexivity|].
  assert (IH' := IH (fun Hc => Hn (or_intror Hc))).
  assert (val <> VUndefined) by (intros ->; apply Hn; now left).
  destruct val; try congruence; cbn [someMatches existsb]; rewrite IH';
    now destruct (trim _ =? nameStr).
Qed.

Lemma someMatches_iff `{Runtime} (vals : list Value) (nameStr : string) :
  ~ In VUndefined vals ->
  (someMatches vals nameStr = Returns true
   <-> exists val, In val vals /\ trim (toString val) = nameStr).
Proof.
  intros Hn. rewrite someMatches_defined by assumption. split.
  - intros [= He]. apply existsb_exists in He. destruct He as [val [Hin He]].
    apply String.eqb_eq in He. eauto.
  - intros [val [Hin He]]. f_equal. apply existsb_exists. exists val.
    split; auto. now apply String.eqb_eq.
Qed.

(** The callback raising, or a match found, both end in "valid". *)
Lemma someMatches_verdict `{Runtime} (vals : list Value) (nameStr : string) :
  ~ In VUndefined vals ->
  (match someMatches vals nameStr with Returns isValid => isValid | Throws => true end = true
   <-> exists val, In val vals /\ trim (toString val) = nameStr).
Proof.
  intros Hn. rewrite <- someMatches_iff by assumption.
  rewrite someMatches_defined by assumption.
  split; [intros -> | intros [= ->]]; reflexivity.
Qed.

(** C4, as the code has it.  A name that is falsy (an empty string, the
    number 0, [false], an absent cell) or a string of white space is
    inadmissible whatever the rule.  Any other name is admissible when there
    is no rule; when a getter of the rule raises; when the rule is a list rule
    or a range rule with no criterion (no criteria array, an empty one, a
    falsy first element); when the range of a range rule cannot be resolved;
    and when the rule is of any other kind.  With a list rule over a non-empty
    set, and with a range rule whose range resolves, it is admissible iff its
    trimmed text equals, case-sensitively, the trimmed text of some member. *)
Theorem identity_validator `{Runtime} (getRange : string -> Completion Grid)
    (nameValue : Value) :
  (falsyOrWhitespace nameValue = true ->
     forall validation, isValidName getRange validation nameValue = false)
  /\ (falsyOrWhitespace nameValue = false ->
      let nameStr := trim (toString nameValue) in
      isValidName getRange None nameValue = true
      /\ (forall rule,
            getCriteriaType rule = Throws \/ getCriteriaValues rule = Throws ->
            isValidName getRange (Some rule) nameValue = true)
      /\ (forall rule allowed others,
            getCriteriaType rule = Returns VALUE_IN_LIST ->
            getCriteriaValues rule = Returns (Some (CrValues allowed :: others)) ->
            allowed <> [] -> ~ In VUndefined allowed ->
            (isValidName getRange (Some rule) nameValue = true
             <-> exists val, In val allowed /\ trim (toString val) = nameStr))
      /\ (forall rule criteriaValues,
            getCriteriaType rule = Returns VALUE_IN_LIST
            \/ getCriteriaType rule = Returns VALUE_IN_RANGE ->
            getCriteriaValues rule = Returns criteriaValues ->
            firstCriterion criteriaValues = None ->
            isValidName getRange (Some rule) nameValue = true)
      /\ (forall rule criteriaValues c,
            getCriteriaType rule = Returns VALUE_IN_RANGE ->
            getCriteriaValues rule = Returns criteriaValues ->
            firstCriterion criteriaValues = Some c ->
            getRange (criterion_toString c) = Throws ->
            isValidName getRange (Some rule) nameValue = true)
      /\ (forall rule criteriaValues c rangeValues,
            getCriteriaType rule = Returns VALUE_IN_RANGE ->
            getCriteriaValues rule = Returns criteriaValues ->
            firstCriterion criteriaValues = Some c ->
            getRange (criterion_toString c) = Returns rangeValues ->
            ~ In VUndefined (List.concat rangeValues) ->
            (isValidName getRange (Some rule) nameValue = true
             <-> exists val, In val (List.concat rangeValues)
                             /\ trim (toString val) = nameStr))
      /\ (forall rule,
            getCriteriaType rule = Returns OTHER_CRITERIA ->
            isValidName getRange (Some rule) nameValue = true)).
Proof.
  split.
  - intros Hb validation. unfold isValidName.
    now rewrite isBlank_falsyOrWhitespace, Hb.
  - intros Hb nameStr. unfold isValidName.
    rewrite isBlank_falsyOrWhitespace, Hb. fold nameStr.
    split; [reflexivity|]. split; [|split; [|split; [|split; [|split]]]].
    + intros rule [-> | Hv]; auto.
      destruct (getCriteriaType rule); auto. now rewrite Hv.
    + intros rule allowed others -> -> _ Hdef. cbn [firstCriterion criterion_truthy].
      now apply someMatches_verdict.
    + intros rule criteriaValues [-> | ->] -> ->; reflexivity.
    + intros rule criteriaValues c -> -> -> ->. reflexivity.
    + intros rule criteriaValues c rangeValues -> -> -> -> Hdef.
      now apply someMatches_verdict.
    + intros rule ->. now destruct (getCriteriaValues rule).
Qed.

Lemma identity_validator_witness :
  falsyOrWhitespace (VStr " Alice ") = false
  /\ isValidName (H := Utc.runtime) (fun _ => Throws)
       (Some (Sample.listRule ["Alice"; "Bob"])) (VStr " Alice ") = true
  /\ isValidName (H := Utc.runtime) (fun _ => Throws)
       (Some (Sample.listRule ["Alice"; "Bob"])) (VStr "Carol") = false
  /\ isValidName (H := Utc.runtime) (fun _ => Throws) None (VStr "Carol") = true.
Proof.
  split; [reflexivity|]. split; [|split; [reflexivity|]].
  - apply (proj1 (proj2 (proj2 (proj2 (identity_validator (H := Utc.runtime)
                    (fun _ => Throws) (VStr " Alice ")) eq_refl)))
             (Sample.listRule ["Alice"; "Bob"]) (map VStr ["Alice"; "Bob"]) [CrBool true]
             eq_refl eq_refl).
    + discriminate.
    + intros [Hc|[Hc|[]]]; discriminate.
    + exists (VStr "Alice"). split; [now left | reflexivity].
  - apply (identity_validator (H := Utc.runtime) (fun _ => Throws) (VStr "Carol")).
    reflexivity.
Defined.

(** A name cell holding the number 0 is not blank, yet it is inadmissible
    with no rule at all; and a list rule over the empty set admits nobody. *)
Lemma identity_validator_rejects :
  emptyOrWhitespace (VNum 0) = false
  /\ isValidName (H := Utc.runtime) (fun _ => Throws) None (VNum 0) = false
  /\ emptyOrWhitespace (VStr "Alice") = false
  /\ isValidName (H := Utc.runtime) (fun _ => Throws) (Some (Sample.listRule []))
       (VStr "Alice") = false.
Proof. repeat split. Qed.

(** ** The notification *)

Lemma label_head (k k' : Key) (t t' : string) :
  In k details -> In k' details ->
  (label k ++ t)%string = (label k' ++ t')%string -> k = k'.
Proof.
  unfold details. simpl.
  intros [<-|[<-|[<-|[<-|[]]]]] [<-|[<-|[<-|[<-|[]]]]]; simpl; congruence.
Qed.

Lemma detailLines_In `{Runtime} (data : RowData) (line : string) :
  In line (detailLines data)
  <-> exists k, In k details /\ truthy (data k) = true
               /\ line = (label k ++ detailText data k ++ nl)%string.
Proof.
  unfold detailLines. rewrite in_flat_map. unfold detailLine. split.
  - intros [k [Hk Hin]]. destruct (truthy (data k)) eqn:E; [|destruct Hin].
    destruct Hin as [<-|[]]. eauto.
  - intros [k [Hk [E ->]]]. exists k. split; auto. rewrite E. now left.
Qed.

(** C9, as the code has it.  The body is the greeting, the introduction,
    the detail lines and the closing.  The line of each of date, violation,
    lateness and notes is among the detail lines iff the cell is truthy: a
    non-empty string (white space included), a non-zero number, [true] or a
    date.  For a row that is mailed, whose name the validator admitted, the
    greeting and the address carry the name as the cell has it. *)
Theorem notification_body `{Runtime} (data : RowData) :
  body (lateSheetEmail data)
  = (greeting (memberName data) ++ intro ++ String.concat "" (detailLines data)
     ++ closing)%string
  /\ detailLines data
     = map (fun k => (label k ++ detailText data k ++ nl)%string)
           (filter (fun k => truthy (data k)) details)
  /\ (forall k, In k details ->
        ((exists text, In (label k ++ text ++ nl)%string (detailLines data))
         <-> truthy (data k) = true))
  /\ (forall getRange validation,
        isValidName getRange validation (data name) = true ->
        memberName data = toString (data name)
        /\ to (lateSheetEmail data)
           = (toString (data name) ++ "@directactioneverywhere.com")%string).
Proof.
  split; [reflexivity|]. split; [|split].
  - unfold detailLines, detailLine, details. simpl.
    destruct (truthy (data date)), (truthy (data violation)),
      (truthy (data howLate)), (truthy (data notes)); reflexivity.
  - intros k Hk. split.
    + intros [text Hin]. apply detailLines_In in Hin.
      destruct Hin as [k' [Hk' [E Heq]]].
      now rewrite (label_head k k' _ _ Hk Hk' Heq).
    + intros E. exists (detailText data k). apply detailLines_In. eauto.
  - intros getRange validation Hv.
    assert (T : truthy (data name) = true).
    { unfold isValidName, isBlank in Hv. destruct (truthy (data name)); [reflexivity|].
      cbn [negb orb] in Hv. discriminate. }
    unfold lateSheetEmail, memberName. rewrite T. auto.
Qed.

Lemma notification_body_witness :
  In howLate details
  /\ truthy (Sample.sparse notes) = true
  /\ exists text,
       In ("Notes: " ++ text ++ nl)%string (detailLines (H := Utc.runtime) Sample.sparse).
Proof.
  split; [simpl; tauto|]. split; [reflexivity|].
  apply (proj1 (proj2 (proj2 (notification_body (H := Utc.runtime) Sample.sparse))) notes).
  - simpl; tauto.
  - reflexivity.
Defined.

(** The notes cell holds white space only and its line is in the body; the
    lateness cell holds the number 0, which is not blank, and its line is
    not. *)
Lemma notification_body_blank_line :
  emptyOrWhitespace (Sample.sparse notes) = true
  /\ emptyOrWhitespace (Sample.sparse howLate) = false
  /\ detailLines (H := Utc.runtime) Sample.sparse = [("Notes:  " ++ nl)%string]
  /\ body (lateSheetEmail (H := Utc.runtime) Sample.sparse)
     = ("Hello alice," ++ nl ++ nl
        ++ "You've been added to the late sheet with the following details:" ++ nl ++ nl
        ++ "Notes:  " ++ nl
        ++ nl ++ "Best regards," ++ nl ++ "Late Sheet System")%string.
Proof. repeat split. Qed.

(** ** The entry points *)

(** C8. The guard says "skip" iff the last modification is later than ten
    minutes before now, that is, for a modification not in the future, iff it
    is less than ten minutes old.  When it says "skip", the guarded entry
    point returns with every sheet and the mail transport as they were.  When
    the modification time cannot be read, the guard says "do not skip" and the
    guarded entry point goes on to [processLateSheet]. *)
Theorem recency_guard `{Runtime} (host : Host) (w : World) :
  tenMinutes = 600000%Z
  /\ (wasSheetModifiedRecently host = true
      <-> exists lastModified, getLastUpdated host = Returns lastModified
                               /\ (guardClock host - tenMinutes < lastModified)%Z)
  /\ (forall lastModified, getLastUpdated host = Returns lastModified ->
        (lastModified <= guardClock host)%Z ->
        (wasSheetModifiedRecently host = true
         <-> (guardClock host - lastModified < tenMinutes)%Z))
  /\ (wasSheetModifiedRecently host = true ->
        processLateSheetIfNotModifiedRecently host w = (w, []))
  /\ (getLastUpdated host = Throws ->
        wasSheetModifiedRecently host = false
        /\ (spreadsheetFound host = true ->
            processLateSheetIfNotModifiedRecently host w = processLateSheet host w)).
Proof.
  split; [reflexivity|]. unfold wasSheetModifiedRecently.
  split; [|split; [|split]].
  - destruct (getLastUpdated host) as [t|].
    + destruct (Z.ltb_spec (guardClock host - tenMinutes) t).
      * split; auto. intros _. eauto.
      * split; [discriminate|]. intros [t' [[= <-] Hlt]]. lia.
    + split; [discriminate|]. intros [t' [Hc _]]. discriminate.
  - intros t -> Hle.
    destruct (Z.ltb_spec (guardClock host - tenMinutes) t); split; auto; try lia;
      try discriminate.
  - intros Hs. unfold processLateSheetIfNotModifiedRecently, wasSheetModifiedRecently.
    rewrite Hs. now destruct (spreadsheetFound host).
  - intros Ht. rewrite Ht. split; auto. intros Hf.
    unfold processLateSheetIfNotModifiedRecently, wasSheetModifiedRecently.
    now rewrite Hf, Ht.
Qed.

Lemma recency_guard_witness :
  wasSheetModifiedRecently (Sample.host 1793629080000 180000) = true
  /\ processLateSheetIfNotModifiedRecently (H := Utc.runtime)
       (Sample.host 1793629080000 180000) Sample.world = (Sample.world, []).
Proof.
  split; [reflexivity|].
  apply (recency_guard (H := Utc.runtime) (Sample.host 1793629080000 180000) Sample.world).
  reflexivity.
Defined.

(** Modified three minutes ago: nothing happens.  Modified fifteen minutes
    ago: the run goes ahead and mails rows 2 and 4 of the sheet "2026". *)
Example recency_gate :
  snd (processLateSheetIfNotModifiedRecently (H := Utc.runtime)
         (Sample.host 1793629080000 180000) Sample.world) = []
  /\ map fst (snd (processLateSheetIfNotModifiedRecently (H := Utc.runtime)
                     (Sample.host 1793629080000 900000) Sample.world)) = [2; 4].
Proof. vm_compute. auto. Qed.

(** C10. When the year read by [processLateSheet] is 2025, both entry
    points return before any sheet is looked up: no row is processed, no cell
    is written, no mail is sent, whatever the sheets hold. *)
Theorem year_2025_gate `{Runtime} (host : Host) (w : World) :
  Date_getFullYear (yearClock host) = 2025%Z ->
  processLateSheet host w = (w, [])
  /\ processLateSheetIfNotModifiedRecently host w = (w, [])
  /\ processLateSheetNow host w = (w, []).
Proof.
  intros Hy.
  assert (P : processLateSheet host w = (w, [])).
  { unfold processLateSheet. now rewrite Hy. }
  unfold processLateSheetIfNotModifiedRecently, processLateSheetNow. rewrite P.
  destruct (spreadsheetFound host), (wasSheetModifiedRecently host); auto.
Qed.

Lemma year_2025_gate_witness :
  Date_getFullYear (Runtime := Utc.runtime) (yearClock (Sample.host 1750000000000 900000))
  = 2025%Z
  /\ processLateSheetNow (H := Utc.runtime) (Sample.host 1750000000000 900000) Sample.world
     = (Sample.world, []).
Proof.
  split; [reflexivity|].
  apply (year_2025_gate (H := Utc.runtime) (Sample.host 1750000000000 900000) Sample.world).
  reflexivity.
Defined.

(* ================================================================== *)
(** * Further properties of the script *)

(** ** Reading the columns *)

Lemma resolveColumns_None_missing (headerRow : Row) :
  resolveColumns headerRow = None -> exists k, ~ In (VStr (columns k)) headerRow.
Proof.
  unfold resolveColumns, missingColumns. rewrite missingColumns_fold. cbn [app].
  destruct (filter _ keys) as [|k l] eqn:E; [discriminate|]. intros _.
  assert (Hk : In k (filter (fun k => negb (isSome (mapHeaders headerRow 0 noIndices k))) keys))
    by (rewrite E; now left).
  apply filter_In in Hk. destruct Hk as [_ Hk]. exists k.
  destruct (mapHeaders headerRow 0 noIndices k) eqn:Em; [discriminate|].
  now apply mapHeaders_None in Em.
Qed.

(** [readColumnData] gives up exactly when the sheet has fewer than two rows
    (no data row under the header) or some label is missing from the header
    row; [processSheet] then processes no row and changes nothing. *)
Theorem readColumnData_gives_up `{Runtime} (env : Env) (st : State) :
  (readColumnData env (grid st) = None
   <-> List.length (grid st) < 2
       \/ exists k, ~ In (VStr (columns k)) (nth 0 (grid st) []))
  /\ (List.length (grid st) < 2
      \/ (exists k, ~ In (VStr (columns k)) (nth 0 (grid st) [])) ->
      processSheet env st = (st, [])).
Proof.
  assert (Hiff : readColumnData env (grid st) = None
                 <-> List.length (grid st) < 2
                     \/ exists k, ~ In (VStr (columns k)) (nth 0 (grid st) [])).
  { unfold readColumnData. destruct (Nat.ltb_spec (List.length (grid st)) 2) as [Hl|Hl].
    - split; auto.
    - destruct (resolveColumns (nth 0 (grid st) [])) as [ci|] eqn:Er.
      + split; [discriminate|]. intros [Hc|[k Hk]]; [lia|]. exfalso. apply Hk.
        apply (proj1 (resolveColumns_iff _)). eauto.
      + split; auto. intros _. right. now apply resolveColumns_None_missing. }
  split; [exact Hiff|]. intros Hc. apply readColumnData_None_abort. now apply Hiff.
Qed.

Lemma mapHeaders_last (headerRow : Row) (index : nat) (ci : ColumnIndices) (k : Key) (i : nat) :
  mapHeaders headerRow index ci k = Some i ->
  (ci k = Some i /\ ~ In (VStr (columns k)) headerRow)
  \/ (index <= i
      /\ nth_error headerRow (i - index) = Some (VStr (columns k))
      /\ forall j, i - index < j -> nth_error headerRow j <> Some (VStr (columns k))).
Proof.
  revert index ci. induction headerRow as [|h t IH]; intros index ci; simpl.
  - intros Hc. left. tauto.
  - intros Hm. apply IH in Hm. rewrite mapHeader_at in Hm.
    destruct Hm as [[Hm Hn]|[Hle [Hn Hlast]]].
    + destruct (labelIs k h) eqn:E.
      * apply labelIs_true in E. injection Hm as <-. right.
        rewrite Nat.sub_diag. split; [lia|]. split; [simpl; congruence|].
        intros [|j] Hj; [lia|]. simpl. intros Hc. apply Hn. eapply nth_error_In; eauto.
      * left. split; auto. intros [Hc|Hc]; auto.
        subst h. now rewrite (proj2 (labelIs_true k _) eq_refl) in E.
    + right. split; [lia|].
      replace (i - index) with (S (i - S index)) by lia. split; [exact Hn|].
      intros [|j] Hj; [lia|]. simpl. apply Hlast. lia.
Qed.

(** When a label occurs in several header cells, the last one is the column:
    the index of a key points at its label and no later header cell holds
    that label. *)
Theorem last_header_wins (headerRow : Row) (ci : ColumnIndices) (k : Key) (i : nat) :
  resolveColumns headerRow = Some ci -> ci k = Some i ->
  nth_error headerRow i = Some (VStr (columns k))
  /\ forall j, i < j -> nth_error headerRow j <> Some (VStr (columns k)).
Proof.
  intros Hr Hk. apply resolveColumns_Some in Hr. subst ci.
  apply mapHeaders_last in Hk. destruct Hk as [[Hk _]|[_ Hk]]; [discriminate|].
  now rewrite Nat.sub_0_r in Hk.
Qed.

Lemma last_header_wins_witness :
  (exists ci, resolveColumns Sample.twoNotes = Some ci /\ ci notes = Some 7)
  /\ nth_error Sample.twoNotes 4 = Some (VStr "Notes")
  /\ nth_error Sample.twoNotes 7 = Some (VStr "Notes").
Proof.
  split; [eexists; split; reflexivity|]. split; [reflexivity|].
  exact (proj1 (last_header_wins Sample.twoNotes
                  (mapHeaders Sample.twoNotes 0 noIndices) notes 7 eq_refl eq_refl)).
Defined.

Lemma processRows_withValidation `{Runtime} (env : Env)
    (rules : nat -> nat -> Completion (option DataValidation)) (cd : ColumnData)
    (rows : list RowInfo) (st : State) :
  processRows (withValidation env rules) cd rows st = processRows env cd rows st.
Proof.
  revert st. induction rows as [|ri rows IH]; intros st; [reflexivity|].
  cbn [processRows].
  change (processRow (withValidation env rules) cd st ri) with (processRow env cd st ri).
  destruct (processRow env cd st ri) as [st1 o]. now rewrite IH.
Qed.

(** Of all the data validation of the sheet, a run looks at one cell only:
    row 2 of the name column.  Two sets of rules that give the same rule
    there, a lookup that raises counting as no rule, give the same run. *)
Theorem validation_read_once `{Runtime} (env : Env)
    (rules : nat -> nat -> Completion (option DataValidation)) (st : State) :
  (forall ci i, resolveColumns (nth 0 (grid st) []) = Some ci -> ci name = Some i ->
     ruleRead rules i = ruleRead (getDataValidation env) i) ->
  processSheet (withValidation env rules) st = processSheet env st.
Proof.
  intros Hsame. unfold processSheet, readColumnData. cbn [getDataValidation withValidation].
  destruct (List.length (grid st) <? 2)%nat; [reflexivity|].
  destruct (resolveColumns (nth 0 (grid st) [])) as [ci|] eqn:Er; [|reflexivity].
  destruct (resolveColumns_total _ _ name Er) as [i Hi]. rewrite Hi.
  pose proof (Hsame ci i eq_refl Hi) as Hrule. unfold ruleRead in Hrule. rewrite Hrule.
  cbn [columnIndices values]. apply processRows_withValidation.
Qed.

Lemma validation_read_once_witness :
  ruleRead Sample.rulesElsewhere 0 = ruleRead (getDataValidation Sample.calm) 0
  /\ processSheet (H := Utc.runtime) (withValidation Sample.calm Sample.rulesElsewhere)
       Sample.start
     = processSheet (H := Utc.runtime) Sample.calm Sample.start.
Proof.
  split; [reflexivity|].
  apply (validation_read_once (H := Utc.runtime)).
  intros ci i Hr Hi. apply resolveColumns_Some in Hr. subst ci.
  injection Hi as <-. reflexivity.
Defined.

(** ** The entry points *)

(** [processLateSheet] touches the sheet named by the current year and no
    other: every other sheet is as it was, the sheet of the year is still
    there with its header row and its number of rows, the transport has
    received the mails of the log after the ones it had, and without a sheet
    of that name nothing happens. *)
Theorem processLateSheet_frame `{Runtime} (host : Host) (w : World) :
  let w' := fst (processLateSheet host w) in
  let log := snd (processLateSheet host w) in
  (forall sheetName, sheetName <> currentYear host -> sheets w' sheetName = sheets w sheetName)
  /\ mailbox w' = mailbox w ++ allMails log
  /\ (sheets w (currentYear host) = None -> w' = w /\ log = [])
  /\ (forall g, sheets w (currentYear host) = Some g ->
        exists g', sheets w' (currentYear host) = Some g'
                   /\ List.length g' = List.length g
                   /\ nth 0 g' [] = nth 0 g []).
Proof.
  unfold processLateSheet, currentYear.
  set (year := Number_toString (Date_getFullYear (yearClock host))).
  destruct (year =? "2025") eqn:E25.
  - cbn [fst snd]. repeat split; auto.
    + simpl. now rewrite app_nil_r.
    + intros g Hg. eauto.
  - destruct (sheets w year) as [g|] eqn:Eg.
    + pose proof (processSheet_outbox (sheetEnv host) {| grid := g; outbox := mailbox w |}) as Ho.
      pose proof (processSheet_length (sheetEnv host) {| grid := g; outbox := mailbox w |}) as Hl.
      pose proof (processSheet_header (sheetEnv host) {| grid := g; outbox := mailbox w |}) as Hh.
      destruct (processSheet (sheetEnv host) {| grid := g; outbox := mailbox w |}) as [st log].
      cbn [fst snd grid outbox setSheet sheets mailbox] in *.
      repeat split.
      * intros n Hn. destruct (String.eqb_spec n year); congruence.
      * exact Ho.
      * discriminate.
      * discriminate.
      * intros g0 [= <-]. exists (grid st). rewrite String.eqb_refl. auto.
    + cbn [fst snd]. repeat split; auto.
      * simpl. now rewrite app_nil_r.
      * discriminate.
Qed.

(** The guard can only skip: the guarded entry point either does nothing,
    when the sheet was modified recently, or does exactly what the
    unconditional entry point does. *)
Theorem guard_only_skips `{Runtime} (host : Host) (w : World) :
  processLateSheetIfNotModifiedRecently host w
  = if wasSheetModifiedRecently host then (w, []) else processLateSheetNow host w.
Proof.
  unfold processLateSheetIfNotModifiedRecently, processLateSheetNow.
  destruct (spreadsheetFound host), (wasSheetModifiedRecently host); reflexivity.
Qed.

(** ** Who is mailed *)

Lemma isValidName_not_blank `{Runtime} (getRange : string -> Completion Grid)
    (validation : option DataValidation) (nameValue : Value) :
  isValidName getRange validation nameValue = true -> isBlank nameValue = false.
Proof. unfold isValidName. now destruct (isBlank nameValue). Qed.

Lemma isBlank_truthy `{Runtime} (v : Value) : isBlank v = false -> truthy v = true.
Proof. unfold isBlank. now destruct (truthy v). Qed.

(** The log entry of a row, whatever it is, comes from a selected row, and
    tells whether the name was admitted. *)
Lemma processSheet_entry_row `{Runtime} (env : Env) (st : State) (r : nat) (o : Outcome) :
  In (r, o) (snd (processSheet env st)) ->
  exists cd ri,
    readColumnData env (grid st) = Some cd
    /\ In ri (unprocessedRows (columnIndices cd) (grid st))
    /\ rowNumber ri = r
    /\ match handedOver o with
       | Some m => m = lateSheetEmail (data ri) /\ isBlank (data ri name) = false
       | None => True
       end
    /\ (isBlank (data ri name) = true -> handedOver o = None).
Proof.
  intros Hin.
  destruct (readColumnData env (grid st)) as [cd|] eqn:Hcd;
    [|rewrite readColumnData_None_abort in Hin by auto; destruct Hin].
  assert (Hr : In r (map rowNumber (unprocessedRows (columnIndices cd) (grid st)))).
  { rewrite (processSheet_read _ _ _ Hcd) in Hin.
    rewrite <- (processRows_log_rows env cd _ st). now apply (in_map fst) in Hin. }
  apply in_map_iff in Hr. destruct Hr as [ri [Hrn Hri]].
  exists cd, ri. split; [reflexivity|]. split; [exact Hri|]. split; [exact Hrn|].
  destruct (selected_row_cases env st cd ri Hcd Hri)
    as [e [st0 [o' [_ [Hf [_ [Hinv Hval]]]]]]].
  assert (o' = o).
  { rewrite Hrn in Hf.
    assert (Hin' : In (r, o) (filter (fun entry => (fst entry =? r)%nat)
                                (snd (processSheet env st)))).
    { apply filter_In. split; auto. apply Nat.eqb_refl. }
    rewrite Hf in Hin'. destruct Hin' as [[= ->]|[]]. reflexivity. }
  subst o'.
  destruct (isValidName (getRange_getValues env st0) (nameValidation cd) (data ri name)) eqn:Ev.
  - destruct (Hval eq_refl) as [Hh _]. rewrite Hh.
    pose proof (isValidName_not_blank _ _ _ Ev) as Hb. split; [auto|]. congruence.
  - destruct (Hinv eq_refl) as [Hh _]. rewrite Hh. auto.
Qed.

Lemma dispatched_handedOver (o : Outcome) (m : Mail) :
  dispatched o = Some m -> handedOver o = Some m.
Proof. destruct o; simpl; congruence. Qed.

(** Every mail a run sends is the mail of a data row whose "Email sent" cell
    was blank and whose name cell is not: it goes to the text of that name
    cell at the fixed domain, under the fixed subject.  The fallback name
    "Member" of [sendLateSheetEmail] is never used by a run. *)
Theorem mails_of_a_run `{Runtime} (env : Env) (st : State) (m : Mail) :
  In m (allMails (snd (processSheet env st))) ->
  exists ci r,
    resolveColumns (nth 0 (grid st) []) = Some ci
    /\ In r (dataRows (grid st))
    /\ falsyOrWhitespace (cellOf ci (grid st) r emailSent) = true
    /\ falsyOrWhitespace (cellOf ci (grid st) r name) = false
    /\ to m = (toString (cellOf ci (grid st) r name) ++ "@directactioneverywhere.com")%string
    /\ subject m = "You've been added to the late sheet."
    /\ In m (outbox (fst (processSheet env st))).
Proof.
  intros Hm.
  assert (Hbox : In m (outbox (fst (processSheet env st))))
    by (rewrite processSheet_outbox; apply in_or_app; now right).
  unfold allMails in Hm. apply in_flat_map in Hm. destruct Hm as [[r o] [Hin Hm]].
  cbn [snd] in Hm. destruct (dispatched o) as [m'|] eqn:Hd; [|destruct Hm].
  destruct Hm as [<-|[]]. apply dispatched_handedOver in Hd.
  destruct (processSheet_entry_row env st r o Hin) as [cd [ri [Hcd [Hri [Hrn [Hh _]]]]]].
  rewrite Hd in Hh. destruct Hh as [-> Hb].
  pose proof (readColumnData_Some _ _ _ Hcd) as [_ [Hci _]].
  pose proof (unprocessedRows_data _ _ _ Hri) as Hdata. rewrite Hrn in Hdata.
  assert (Hsel : In r (map rowNumber (unprocessedRows (columnIndices cd) (grid st))))
    by (rewrite <- Hrn; now apply in_map).
  rewrite unprocessedRows_rowNumbers in Hsel. apply filter_In in Hsel.
  destruct Hsel as [Hrow Hblank].
  exists (columnIndices cd), r. rewrite <- !isBlank_falsyOrWhitespace, <- (Hdata name).
  repeat split; auto.
  unfold lateSheetEmail, memberName. cbn [to].
  now rewrite (isBlank_truthy _ Hb).
Qed.

Lemma mails_of_a_run_witness :
  In (lateSheetEmail (H := Utc.runtime) (data (Sample.firstRow Sample.calm)))
     (allMails (snd (processSheet (H := Utc.runtime) Sample.calm Sample.start)))
  /\ In (lateSheetEmail (H := Utc.runtime) (data (Sample.firstRow Sample.calm)))
        (outbox (fst (processSheet (H := Utc.runtime) Sample.calm Sample.start))).
Proof.
  assert (Hin : In (lateSheetEmail (H := Utc.runtime) (data (Sample.firstRow Sample.calm)))
                  (allMails (snd (processSheet (H := Utc.runtime) Sample.calm Sample.start))))
    by (left; reflexivity).
  split; [exact Hin|].
  destruct (mails_of_a_run (H := Utc.runtime) Sample.calm Sample.start _ Hin)
    as [ci [r [_ [_ [_ [_ [_ [_ Hbox]]]]]]]].
  exact Hbox.
Defined.

(** A row without a name is never mailed, whatever the validation rule and
    whatever the services do: if the name cell of a processed row is falsy or
    white space, no mail is handed to the transport for it, and the row ends
    marked "invalid name" or, when that write raises, as it was. *)
Theorem nameless_rows_not_mailed `{Runtime} (env : Env) (st : State) (ci : ColumnIndices)
    (r : nat) (o : Outcome) :
  resolveColumns (nth 0 (grid st) []) = Some ci ->
  In (r, o) (snd (processSheet env st)) ->
  falsyOrWhitespace (cellOf ci (grid st) r name) = true ->
  handedOver o = None
  /\ dispatched o = None
  /\ (o = MarkedInvalid \/ o = MarkFailed).
Proof.
  intros Hci Hin Hb.
  destruct (processSheet_entry_row env st r o Hin) as [cd [ri [Hcd [Hri [Hrn [_ Hnone]]]]]].
  pose proof (readColumnData_Some _ _ _ Hcd) as [_ [Hci' _]].
  assert (columnIndices cd = ci) by congruence. subst ci.
  pose proof (unprocessedRows_data _ _ _ Hri name) as Hdata. rewrite Hrn in Hdata.
  rewrite <- Hdata, <- isBlank_falsyOrWhitespace in Hb.
  specialize (Hnone Hb). destruct o; simpl in *; try discriminate; auto.
Qed.

Lemma nameless_rows_not_mailed_witness :
  In (2, MarkedInvalid)
     (snd (processSheet (H := Utc.runtime) Sample.calm
             {| grid := [Sample.header; Sample.lateRow "  " (VStr "")]; outbox := [] |}))
  /\ handedOver MarkedInvalid = None.
Proof.
  assert (Hin : In (2, MarkedInvalid)
                  (snd (processSheet (H := Utc.runtime) Sample.calm
                          {| grid := [Sample.header; Sample.lateRow "  " (VStr "")];
                             outbox := [] |})))
    by (left; reflexivity).
  split; [exact Hin|].
  exact (proj1 (nameless_rows_not_mailed (H := Utc.runtime) Sample.calm
                  {| grid := [Sample.header; Sample.lateRow "  " (VStr "")]; outbox := [] |}
                  Sample.indices 2 MarkedInvalid eq_refl Hin eq_refl)).
Defined.

(** ** The validator and white space *)

Lemma isBlank_text `{Runtime} (s : string) : isBlank (VStr s) = (trim s =? "").
Proof.
  unfold isBlank. cbn [truthy toString]. destruct s; reflexivity.
Qed.

(** White space around a name never changes the verdict: two text names with
    the same trimmed text are both admitted or both rejected, under any
    rule. *)
Theorem validator_ignores_padding `{Runtime} (getRange : string -> Completion Grid)
    (validation : option DataValidation) (s1 s2 : string) :
  trim s1 = trim s2 ->
  isValidName getRange validation (VStr s1) = isValidName getRange validation (VStr s2).
Proof.
  intros Ht. unfold isValidName. rewrite !isBlank_text. cbn [toString]. now rewrite Ht.
Qed.

Lemma validator_ignores_padding_witness :
  trim " Alice " = trim "Alice"
  /\ isValidName (H := Utc.runtime) (fun _ => Throws)
       (Some (Sample.listRule ["Alice"; "Bob"])) (VStr " Alice ")
     = isValidName (H := Utc.runtime) (fun _ => Throws)
         (Some (Sample.listRule ["Alice"; "Bob"])) (VStr "Alice").
Proof.
  split; [reflexivity|].
  apply (validator_ignores_padding (H := Utc.runtime)). reflexivity.
Defined.

(** ** What a run leaves alone *)

Lemma nth_setNth_inside {A : Type} (d d' : A) (l : list A) (i j : nat) (v : A) :
  i < List.length l -> j <> i -> nth j (setNth d l i v) d' = nth j l d'.
Proof.
  revert l j. induction i as [|i IH]; intros [|x l] [|j] Hi Hj; simpl in *; auto; try lia.
  apply IH; lia.
Qed.

Lemma writeCell_row (g : Grid) (r c : nat) (v : Value) :
  nth (r - 1) (writeCell g r c v) [] = setNth (VStr "") (nth (r - 1) g []) (c - 1) v.
Proof. unfold writeCell. apply nth_setNth_same. Qed.

(** A write inside the data range changes one cell and no length. *)
Lemma writeCell_inside (g : Grid) (r e : nat) (v : Value) :
  e < List.length (nth (r - 1) g []) ->
  (forall j, List.length (nth j (writeCell g r (S e) v) []) = List.length (nth j g []))
  /\ (forall j c d, c <> e ->
        nth c (nth j (writeCell g r (S e) v) []) d = nth c (nth j g []) d).
Proof.
  intros He. split.
  - intros j. destruct (Nat.eq_dec j (r - 1)) as [->|Hj].
    + rewrite writeCell_row. apply length_setNth. now replace (S e - 1) with e by lia.
    + now rewrite writeCell_other_row.
  - intros j c d Hc. destruct (Nat.eq_dec j (r - 1)) as [->|Hj].
    + rewrite writeCell_row. replace (S e - 1) with e by lia.
      now apply nth_setNth_inside.
    + now rewrite writeCell_other_row.
Qed.

Lemma processRows_inside `{Runtime} (env : Env) (cd : ColumnData) (e : nat)
    (rows : list RowInfo) (st : State) :
  columnIndices cd emailSent = Some e ->
  (forall ri, In ri rows ->
     1 <= rowNumber ri <= List.length (grid st)
     /\ e < List.length (nth (rowNumber ri - 1) (grid st) [])) ->
  let final := fst (processRows env cd rows st) in
  (forall j, List.length (nth j (grid final) []) = List.length (nth j (grid st) []))
  /\ (forall j c d, c <> e -> nth c (nth j (grid final) []) d = nth c (nth j (grid st) []) d).
Proof.
  intros He. revert st. induction rows as [|ri rows IH]; intros st Hrows; [split; reflexivity|].
  cbn [processRows].
  destruct (processRow env cd st ri) as [st1 o] eqn:Hp.
  pose proof (processRow_effects env cd e He _ _ _ _ Hp) as [_ Hg].
  pose proof (processRow_length env cd e He _ _ _ _ Hp (proj1 (Hrows ri (or_introl eq_refl))))
    as Hl.
  assert (Hstep : (forall j, List.length (nth j (grid st1) []) = List.length (nth j (grid st) []))
                  /\ (forall j c d, c <> e ->
                        nth c (nth j (grid st1) []) d = nth c (nth j (grid st) []) d)).
  { rewrite Hg. destruct (written o); [|split; reflexivity].
    apply writeCell_inside. apply (Hrows ri (or_introl eq_refl)). }
  destruct Hstep as [Hlen Hcell].
  specialize (IH st1).
  destruct (processRows env cd rows st1) as [st2 log]. cbn [fst] in *.
  destruct IH as [IHlen IHcell].
  { intros ri' Hri'. rewrite Hl, Hlen. apply Hrows. now right. }
  split.
  - intros j. now rewrite IHlen.
  - intros j c d Hc. now rewrite IHcell, Hcell.
Qed.

Lemma rectangular_iff (g : Grid) :
  rectangular g = true
  <-> forall j, j < List.length g ->
        List.length (nth j g []) = List.length (nth 0 g []).
Proof.
  unfold rectangular. rewrite forallb_forall. split.
  - intros Hall j Hj. apply Nat.eqb_eq, Hall, nth_In, Hj.
  - intros Hall row Hrow. apply (In_nth _ _ []) in Hrow.
    destruct Hrow as [j [Hj <-]]. apply Nat.eqb_eq, Hall, Hj.
Qed.

(** On a rectangular sheet a run writes into the "Email sent" column only:
    every cell of every other column is as it was, the sheet stays
    rectangular with the same number of rows, and a row without a log entry
    keeps all its cells. *)
Theorem only_emailSent_written `{Runtime} (env : Env) (st : State) :
  rectangular (grid st) = true ->
  let final := fst (processSheet env st) in
  let log := snd (processSheet env st) in
  rectangular (grid final) = true
  /\ List.length (grid final) = List.length (grid st)
  /\ (forall ci e, resolveColumns (nth 0 (grid st) []) = Some ci -> ci emailSent = Some e ->
        forall j c d, c <> e ->
          nth c (nth j (grid final) []) d = nth c (nth j (grid st) []) d)
  /\ (forall r, 1 <= r -> ~ In r (map fst log) ->
        nth (r - 1) (grid final) [] = nth (r - 1) (grid st) []).
Proof.
  intros Hrect final log.
  assert (Hlast : forall r, 1 <= r -> ~ In r (map fst log) ->
                    nth (r - 1) (grid final) [] = nth (r - 1) (grid st) [])
    by (intros r; apply processSheet_row_skipped).
  assert (Hlen : List.length (grid final) = List.length (grid st))
    by apply processSheet_length.
  destruct (readColumnData env (grid st)) as [cd|] eqn:Hcd.
  - pose proof (readColumnData_Some _ _ _ Hcd) as [Hl2 [Hci _]].
    destruct (resolveColumns_total _ _ emailSent Hci) as [e He].
    assert (Hin : e < List.length (nth 0 (grid st) [])).
    { pose proof (resolveColumns_Some _ _ Hci) as Hm. rewrite Hm in He.
      apply mapHeaders_Some in He. destruct He as [He|[_ He]]; [discriminate|].
      rewrite Nat.sub_0_r in He. apply nth_error_Some. congruence. }
    assert (Hrows : forall ri, In ri (unprocessedRows (columnIndices cd) (grid st)) ->
              1 <= rowNumber ri <= List.length (grid st)
              /\ e < List.length (nth (rowNumber ri - 1) (grid st) [])).
    { intros ri Hri. apply (in_map rowNumber) in Hri. apply unprocessedRows_In in Hri.
      split; [lia|]. rewrite (proj1 (rectangular_iff _) Hrect) by lia. exact Hin. }
    pose proof (processRows_inside env cd e _ st He Hrows) as [Hrl Hcell].
    rewrite <- (processSheet_read _ _ _ Hcd) in Hrl, Hcell. fold final in Hrl, Hcell.
    split; [|split; [exact Hlen|split; [|exact Hlast]]].
    + apply rectangular_iff. intros j Hj. rewrite !Hrl.
      apply (proj1 (rectangular_iff _) Hrect). now rewrite <- Hlen.
    + intros ci e' Hci' He' j c d Hc. apply Hcell. congruence.
  - unfold final, log in *. rewrite readColumnData_None_abort by auto. cbn [fst snd].
    repeat split; auto.
Qed.

Lemma only_emailSent_written_witness :
  rectangular (grid Sample.start) = true
  /\ rectangular (grid (fst (processSheet (H := Utc.runtime) Sample.calm Sample.start))) = true.
Proof.
  split; [reflexivity|].
  exact (proj1 (only_emailSent_written (H := Utc.runtime) Sample.calm Sample.start eq_refl)).
Defined.

Lemma runs_length `{Runtime} (envs : list Env) (st : State) :
  List.length (grid (fst (runs envs st))) = List.length (grid st).
Proof.
  revert st. induction envs as [|env envs IH]; intros st; [reflexivity|].
  cbn [runs]. pose proof (processSheet_length env st) as Hl.
  destruct (processSheet env st) as [st1 log1]. specialize (IH st1).
  destruct (runs envs st1) as [st2 log2]. cbn [fst] in *. congruence.
Qed.

(** What is not to be processed is never touched again.  Over any sequence
    of runs, whatever the services do, a row that no run would select now
    (the header row, a row already stamped or marked, a row below the data)
    keeps all its cells, is never selected and has no log entry; the number
    of rows stays the same. *)
Theorem resolved_rows_stay `{Runtime} (envs : list Env) (st : State) (r : nat) :
  1 <= r -> unprocessed (grid st) r = false ->
  nth (r - 1) (grid (fst (runs envs st))) [] = nth (r - 1) (grid st) []
  /\ unprocessed (grid (fst (runs envs st))) r = false
  /\ ~ In r (map fst (snd (runs envs st)))
  /\ List.length (grid (fst (runs envs st))) = List.length (grid st).
Proof.
  intros Hr. revert st. induction envs as [|env envs IH]; intros st Hu.
  - cbn [runs fst snd map]. auto.
  - pose proof (runs_length (env :: envs) st) as Hlen. cbn [runs] in *.
    assert (Hn : ~ In r (map fst (snd (processSheet env st)))).
    { intros Hc. apply processSheet_log_rows in Hc. congruence. }
    pose proof (processSheet_row_skipped env st r Hr Hn) as Hrow.
    assert (Hu1 : unprocessed (grid (fst (processSheet env st))) r = false).
    { destruct (unprocessed (grid (fst (processSheet env st))) r) eqn:E; auto.
      apply processSheet_unprocessed_after in E. destruct E as [E _]. congruence. }
    destruct (processSheet env st) as [st1 log1]. cbn [fst snd] in *.
    specialize (IH st1 Hu1).
    destruct (runs envs st1) as [st2 log2]. cbn [fst snd] in *.
    destruct IH as [IHrow [IHu [IHn _]]].
    split; [congruence|]. split; [exact IHu|]. split; [|exact Hlen].
    rewrite map_app. intros Hc. apply in_app_or in Hc. tauto.
Qed.

Lemma resolved_rows_stay_witness :
  unprocessed (H := Utc.runtime) (grid Sample.start) 3 = false
  /\ nth 2 (grid (fst (runs (H := Utc.runtime)
                         [Sample.calm; Sample.writesRefused; Sample.mailDown] Sample.start))) []
     = Sample.lateRow "bob" (VDate 1793500000000).
Proof.
  split; [reflexivity|].
  apply (resolved_rows_stay (H := Utc.runtime)
           [Sample.calm; Sample.writesRefused; Sample.mailDown] Sample.start 3).
  - lia.
  - reflexivity.
Defined.

(** ** How much a run does *)

Lemma allMails_length (log : Log) : List.length (allMails log) <= List.length log.
Proof.
  unfold allMails. induction log as [|[r o] log IH]; simpl; auto.
  rewrite length_app. destruct (dispatched o); simpl; lia.
Qed.

(** A run processes at most one row per data row of the sheet and sends at
    most one mail per processed row, so the transport receives at most as
    many mails as the sheet has rows under the header; and when no data row
    has a blank "Email sent" cell the run does nothing at all. *)
Theorem run_size `{Runtime} (env : Env) (st : State) :
  let final := fst (processSheet env st) in
  let log := snd (processSheet env st) in
  List.length log <= List.length (grid st) - 1
  /\ List.length (allMails log) <= List.length log
  /\ List.length (outbox final) <= List.length (outbox st) + (List.length (grid st) - 1)
  /\ ((forall r, In r (dataRows (grid st)) ->
         falsyOrWhitespace (emailSentCell (grid st) r) = false) ->
      processSheet env st = (st, [])).
Proof.
  intros final log.
  assert (Hlog : List.length log <= List.length (grid st) - 1).
  { unfold log. destruct (readColumnData env (grid st)) as [cd|] eqn:Hcd.
    - rewrite <- (length_map fst), (processSheet_read _ _ _ Hcd), processRows_log_rows,
        unprocessedRows_rowNumbers.
      etransitivity; [apply filter_length_le|]. unfold dataRows. now rewrite length_seq.
    - rewrite readColumnData_None_abort by auto. simpl. lia. }
  pose proof (allMails_length log) as Hm.
  split; [exact Hlog|]. split; [exact Hm|]. split.
  - unfold final. rewrite processSheet_outbox, length_app. fold log. lia.
  - intros Hall.
    destruct (readColumnData env (grid st)) as [cd|] eqn:Hcd;
      [|now apply readColumnData_None_abort].
    rewrite (processSheet_read _ _ _ Hcd).
    destruct (unprocessedRows (columnIndices cd) (grid st)) as [|ri rows] eqn:Hrows; auto.
    exfalso.
    assert (Hin : In (rowNumber ri)
                    (map rowNumber (unprocessedRows (columnIndices cd) (grid st))))
      by (rewrite Hrows; now left).
    rewrite unprocessedRows_rowNumbers in Hin. apply filter_In in Hin.
    destruct Hin as [Hrow Hb].
    pose proof (readColumnData_Some _ _ _ Hcd) as [_ [Hci _]].
    rewrite <- (emailSentCell_cellOf _ _ _ Hci), isBlank_falsyOrWhitespace in Hb.
    rewrite (Hall _ Hrow) in Hb. discriminate.
Qed.

Lemma run_size_witness :
  (forall r, In r (dataRows [Sample.header; Sample.lateRow "bob" (VDate 1793500000000)]) ->
     falsyOrWhitespace
       (emailSentCell [Sample.header; Sample.lateRow "bob" (VDate 1793500000000)] r) = false)
  /\ processSheet (H := Utc.runtime) Sample.mailDown
       {| grid := [Sample.header; Sample.lateRow "bob" (VDate 1793500000000)]; outbox := [] |}
     = ({| grid := [Sample.header; Sample.lateRow "bob" (VDate 1793500000000)];
           outbox := [] |}, []).
Proof.
  assert (Hall : forall r,
            In r (dataRows [Sample.header; Sample.lateRow "bob" (VDate 1793500000000)]) ->
            falsyOrWhitespace
              (emailSentCell [Sample.header; Sample.lateRow "bob" (VDate 1793500000000)] r)
            = false).
  { intros r [<-|[]]. reflexivity. }
  split; [exact Hall|].
  exact (proj2 (proj2 (proj2 (run_size (H := Utc.runtime) Sample.mailDown
           {| grid := [Sample.header; Sample.lateRow "bob" (VDate 1793500000000)];
              outbox := [] |}))) Hall).
Defined.

(** ** The order of a run *)

Lemma seq_StronglySorted (start len : nat) : StronglySorted lt (seq start len).
Proof.
  revert start. induction len as [|len IH]; intros start; simpl; constructor; auto.
  apply Forall_forall. intros x Hx. apply in_seq in Hx. lia.
Qed.

Lemma filter_StronglySorted {A : Type} (R : A -> A -> Prop) (p : A -> bool) (l : list A) :
  StronglySorted R l -> StronglySorted R (filter p l).
Proof.
  induction 1 as [|a l Hs IH Ha]; simpl; [constructor|].
  destruct (p a); auto. constructor; auto.
  apply Forall_forall. intros x Hx. apply filter_In in Hx.
  rewrite Forall_forall in Ha. now apply Ha.
Qed.

(** A run goes down the sheet: the rows of its log are in strictly increasing
    order of row number, all of them data rows, and the mails the transport
    receives are the mails of the log in that order, after the ones it
    had. *)
Theorem run_goes_down `{Runtime} (env : Env) (st : State) :
  let final := fst (processSheet env st) in
  let log := snd (processSheet env st) in
  StronglySorted lt (map fst log)
  /\ (forall r, In r (map fst log) -> In r (dataRows (grid st)))
  /\ outbox final = outbox st ++ allMails log.
Proof.
  intros final log. split; [|split].
  - unfold log. destruct (readColumnData env (grid st)) as [cd|] eqn:Hcd.
    + rewrite (processSheet_read _ _ _ Hcd), processRows_log_rows, unprocessedRows_rowNumbers.
      apply filter_StronglySorted, seq_StronglySorted.
    + rewrite readColumnData_None_abort by auto. constructor.
  - intros r Hr. apply processSheet_log_rows, unprocessed_iff in Hr.
    destruct Hr as [ci [_ Hr]]. rewrite unprocessedRows_rowNumbers in Hr.
    now apply filter_In in Hr.
  - apply processSheet_outbox.
Qed.
